(** * Shift indexing and report-matrix construction (app.py)

    A shallow embedding of the data-processing core of [app.py]:
    [normalize_value], [parse_hhmm], [minutes], [sort_donetime_list],
    [build_shift_index] and [build_report], together with the parts of the
    Python runtime they rely on (string trimming, [datetime.strptime] for
    the two formats used, insertion-ordered dictionaries, the stable
    [sorted]).

    Conventions.
    - A Python [str] is a list of Unicode code points ([pystr]); literals
      are written [py "..."], which decodes the UTF-8 bytes of a Rocq
      string.
    - A JSON value is a [value]: [None], a string, or any other value
      (number, boolean, list, object), of which only the truth value and
      the [str()] rendering are observable by this code.
    - A raw record is a JSON object, a finite map from field names to
      values.
    - Python dictionaries whose iteration order is observed ([idx],
      [submissions], [meta]) are association lists in insertion order.
    - [time] objects are truthy whatever their value (Python 3.5 and
      later). *)

From Stdlib Require Import ZArith NArith String Ascii Permutation Sorted.
From stdpp Require Import base option list gmap strings.

Open Scope Z_scope.

(** ** Python strings *)

Abbreviation pystr := (list N).

(** UTF-8 decoding of a literal, one code point per well-formed sequence. *)
Fixpoint utf8_decode (bs : list N) : pystr :=
  match bs with
  | [] => []
  | b :: r =>
      if (b <? 128)%N then b :: utf8_decode r
      else if (b <? 224)%N then
        match r with
        | b1 :: r' => ((b - 192) * 64 + (b1 - 128))%N :: utf8_decode r'
        | _ => []
        end
      else if (b <? 240)%N then
        match r with
        | b1 :: b2 :: r' =>
            ((b - 224) * 4096 + (b1 - 128) * 64 + (b2 - 128))%N :: utf8_decode r'
        | _ => []
        end
      else
        match r with
        | b1 :: b2 :: b3 :: r' =>
            ((b - 240) * 262144 + (b1 - 128) * 4096 + (b2 - 128) * 64 + (b3 - 128))%N
              :: utf8_decode r'
        | _ => []
        end
  end.

Fixpoint bytes_of (s : string) : list N :=
  match s with
  | EmptyString => []
  | String a r => N_of_ascii a :: bytes_of r
  end.

Definition py (s : string) : pystr := utf8_decode (bytes_of s).

(** [str.isspace] for one code point: the characters [str.strip()] removes. *)
Definition isspace (c : N) : bool :=
  ((9 <=? c) && (c <=? 13) || (28 <=? c) && (c <=? 32)
   || (c =? 133) || (c =? 160) || (c =? 5760)
   || (8192 <=? c) && (c <=? 8202)
   || (c =? 8232) || (c =? 8233) || (c =? 8239) || (c =? 8287)
   || (c =? 12288))%N.

Fixpoint lstrip (s : pystr) : pystr :=
  match s with
  | c :: r => if isspace c then lstrip r else s
  | [] => []
  end.

Definition rstrip (s : pystr) : pystr := reverse (lstrip (reverse s)).

Definition strip (s : pystr) : pystr := rstrip (lstrip s).

(** [s.replace(a, b)] for single-character [a] and [b]. *)
Definition replace (a b : N) (s : pystr) : pystr :=
  (fun c => if (c =? a)%N then b else c) <$> s.

Definition comma : N := 44.
Definition period : N := 46.
Definition colon : N := 58.
Definition hyphen : N := 45.
Definition space : N := 32.

(** ** JSON values and raw records *)

Inductive value :=
| VNone
| VStr (s : pystr)
| VOther (truth : bool) (text : pystr).

(** [bool(v)] *)
Definition truthy (v : value) : bool :=
  match v with
  | VNone => false
  | VStr s => negb (bool_decide (s = []))
  | VOther b _ => b
  end.

(** [str(v)] *)
Definition str (v : value) : pystr :=
  match v with
  | VNone => py "None"
  | VStr s => s
  | VOther _ t => t
  end.

(** [a or b] *)
Definition por (a b : value) : value := if truthy a then a else b.

Abbreviation record := (gmap string value).

(** [r.get(k)] *)
Definition get (r : record) (k : string) : value := default VNone (r !! k).

(** [str(r.get(k) or "").strip()], the coercion applied to every field read. *)
Definition field (r : record) (k : string) : pystr :=
  strip (str (por (get r k) (VStr []))).

(** ** Exceptions *)

Inductive exn :=
| AttributeError
| TypeError
| ValueError
| SystemExit.

(** [isinstance(e, Exception)]: [SystemExit] derives from [BaseException]
    only, so [except Exception] lets it through. *)
Definition is_Exception (e : exn) : bool :=
  match e with
  | SystemExit => false
  | _ => true
  end.

Inductive outcome (A : Type) :=
| Returns (a : A)
| Raises (e : exn).
Arguments Returns {A} a.
Arguments Raises {A} e.

#[global] Instance outcome_ret : MRet outcome := fun A a => Returns a.

#[global] Instance outcome_bind : MBind outcome := fun A B f m =>
  match m with
  | Returns a => f a
  | Raises e => Raises e
  end.

(** [try: body  except Exception: handler] *)
Definition try_except_Exception {A} (body handler : outcome A) : outcome A :=
  match body with
  | Returns a => Returns a
  | Raises e => if is_Exception e then handler else Raises e
  end.

(** ** normalize_value *)

Definition normalize_value (v : value) : pystr :=
  match v with
  | VNone => []
  | _ =>
      let s := strip (str v) in
      if bool_decide (s ∈ [py "-"; py "N/A"; py "n/a"]) then []
      else replace comma period s
  end.

(** ** datetime.time, datetime.date and strptime *)

Record time := mk_time { hour : Z; minute : Z }.

Record date := mk_date { year : Z; month : Z; day : Z }.

#[global] Instance time_eq_dec : EqDecision time.
Proof. solve_decision. Defined.

#[global] Instance date_eq_dec : EqDecision date.
Proof. solve_decision. Defined.

(** [datetime.min.time()] and [datetime.min.date()] *)
Definition time_min : time := mk_time 0 0.
Definition date_min : date := mk_date 1 1 1.

(** [a < b] on [time] objects (seconds and microseconds are always 0 here). *)
Definition time_ltb (a b : time) : bool :=
  (hour a <? hour b) || (hour a =? hour b) && (minute a <? minute b).

(** [a < b] on [date] objects. *)
Definition date_ltb (a b : date) : bool :=
  (year a <? year b)
  || (year a =? year b)
     && ((month a <? month b) || (month a =? month b) && (day a <? day b)).

(** First code points of the runs of Unicode decimal digits (category Nd,
    Unicode 14): each run holds the digits 0 to 9 in order; the run of
    mathematical digits at 120782 holds five such series. *)
Definition decimal_runs : list (N * N) :=
  ((fun b => (b, 10%N)) <$>
    [48; 1632; 1776; 1984; 2406; 2534; 2662; 2790; 2918; 3046; 3174; 3302;
     3430; 3558; 3664; 3792; 3872; 4160; 4240; 6112; 6160; 6470; 6608; 6784;
     6800; 6992; 7088; 7232; 7248; 42528; 43216; 43264; 43472; 43504; 43600;
     44016; 65296; 66720; 68912; 69734; 69872; 69942; 70096; 70384; 70736;
     70864; 71248; 71360; 71472; 71904; 72016; 72784; 73040; 73120; 92768;
     92864; 93008; 123200; 123632; 125264; 130032]%N)
  ++ [(120782, 50)]%N.

(** The regex class [\d] on [str] patterns, with the value [int()] gives the
    character. *)
Definition digit (c : N) : option Z :=
  match find (fun '(b, n) => (b <=? c)%N && (c <? b + n)%N) decimal_runs with
  | Some (b, _) => Some (Z.of_N ((c - b) mod 10))
  | None => None
  end.

(** The regex class [[lo-hi]] for ASCII digits [lo], [hi]. *)
Definition digit_in (lo hi : Z) (c : N) : option Z :=
  let d := Z.of_N c - 48 in
  if (lo <=? d) && (d <=? hi) then Some d else None.

(** A regex fragment: every way it can match a prefix of the input, in the
    order a backtracking matcher tries them, with the number read and the
    rest of the input. *)
Definition one (cls : N -> option Z) (s : pystr) : list (Z * pystr) :=
  match s with
  | c :: r => match cls c with Some d => [(d, r)] | None => [] end
  | [] => []
  end.

Definition two (c1 c2 : N -> option Z) (s : pystr) : list (Z * pystr) :=
  '(a, r) ← one c1 s; '(b, r') ← one c2 r; [(10 * a + b, r')].

Definition lit (c : N) (s : pystr) : list pystr :=
  match s with
  | c' :: r => if (c' =? c)%N then [r] else []
  | [] => []
  end.

(** [%H] is [2[0-3]|[0-1]\d|\d] and [%M] is [[0-5]\d|\d]. *)
Definition re_H (s : pystr) : list (Z * pystr) :=
  two (digit_in 2 2) (digit_in 0 3) s ++ two (digit_in 0 1) digit s ++ one digit s.

Definition re_M (s : pystr) : list (Z * pystr) :=
  two (digit_in 0 5) digit s ++ one digit s.

(** [%Y] is [\d\d\d\d], [%m] is [1[0-2]|0[1-9]|[1-9]] and [%d] is
    [3[0-1]|[1-2]\d|0[1-9]|[1-9]| [1-9]]. *)
Definition re_Y (s : pystr) : list (Z * pystr) :=
  '(a, r) ← two digit digit s; '(b, r') ← two digit digit r; [(100 * a + b, r')].

Definition re_m (s : pystr) : list (Z * pystr) :=
  two (digit_in 1 1) (digit_in 0 2) s ++ two (digit_in 0 0) (digit_in 1 9) s
  ++ one (digit_in 1 9) s.

Definition re_d (s : pystr) : list (Z * pystr) :=
  two (digit_in 3 3) (digit_in 0 1) s ++ two (digit_in 1 2) digit s
  ++ two (digit_in 0 0) (digit_in 1 9) s ++ one (digit_in 1 9) s
  ++ (r ← lit space s; one (digit_in 1 9) r).

Definition is_leap (y : Z) : bool :=
  (y mod 4 =? 0) && (negb (y mod 100 =? 0) || (y mod 400 =? 0)).

Definition days_in_month (y m : Z) : Z :=
  if m =? 2 then (if is_leap y then 29 else 28)
  else if (m =? 4) || (m =? 6) || (m =? 9) || (m =? 11) then 30
  else 31.

(** [datetime.strptime(s, "%H:%M").time()]: the first match of the pattern
    at the start of [s] must use up the whole of [s]. *)
Definition strptime_HM (s : pystr) : outcome time :=
  match head ('(h, r) ← re_H s; r1 ← lit colon r; '(m, r2) ← re_M r1; [(h, m, r2)]) with
  | Some (h, m, []) => Returns (mk_time h m)
  | _ => Raises ValueError
  end.

(** [datetime.strptime(s, "%Y-%m-%d").date()] *)
Definition strptime_Ymd (s : pystr) : outcome date :=
  match head ('(y, r) ← re_Y s; r1 ← lit hyphen r; '(m, r2) ← re_m r1;
              r3 ← lit hyphen r2; '(d, r4) ← re_d r3; [(y, m, d, r4)]) with
  | Some (y, m, d, []) =>
      if (1 <=? y) && (d <=? days_in_month y m) then Returns (mk_date y m d)
      else Raises ValueError
  | _ => Raises ValueError
  end.

(** ** parse_hhmm and minutes *)

(** The attribute lookup [s.strip] followed by the call: only [str] values
    have the method. *)
Definition call_strip (v : value) : outcome pystr :=
  match v with
  | VStr s => Returns (strip s)
  | _ => Raises AttributeError
  end.

Definition parse_hhmm (v : value) : outcome (option time) :=
  try_except_Exception
    (s ← call_strip v; t ← strptime_HM s; mret (Some t))
    (mret None).

(** What [parse_hhmm] returns on a [str] argument, as its callers in this
    module use it ([parse_hhmm_str_spec] below ties it to [parse_hhmm]). *)
Definition parse_hhmm_str (s : pystr) : option time :=
  match strptime_HM (strip s) with
  | Returns t => Some t
  | Raises _ => None
  end.

Definition minutes (t : time) : Z := hour t * 60 + minute t.

(** ** sorted *)

(** [sorted(l, key=key, reverse=reverse)]: Python's sort is stable, also
    with [reverse=True], and compares keys with [<] only; the stable
    insertion sort computes the same list. *)
Section sorted.
Context {A K : Type} (ltb : K → K → bool) (key : A → K) (reverse : bool).

Definition before (a b : K) : bool := if reverse then ltb b a else ltb a b.

Fixpoint insert_sorted (x : A) (l : list A) : list A :=
  match l with
  | [] => [x]
  | y :: l' =>
      if before (key y) (key x) then y :: insert_sorted x l'
      else x :: y :: l'
  end.

Definition sorted (l : list A) : list A := foldr insert_sorted [] l.

(** [x] may stand before [y] in the result: [key y] is not before [key x]. *)
Definition in_order (x y : A) : Prop := before (key y) (key x) = false.
End sorted.

(** ** sort_donetime_list *)

(** The closure [key] of [sort_donetime_list], with the captured [start_m]
    as its first argument. *)
Definition key (start_m : Z) (tstr : pystr) : Z :=
  let t := default (mk_time 0 0) (parse_hhmm_str tstr) in
  let m := minutes t in
  (m - start_m) `mod` (24 * 60).

Definition shift_start_m (SHIFT_START : gmap pystr pystr) (shift_name : pystr) : Z :=
  let start_str := default (py "00:00") (SHIFT_START !! shift_name) in
  let start_t := default (mk_time 0 0) (parse_hhmm_str start_str) in
  minutes start_t.

Definition sort_donetime_list_with (SHIFT_START : gmap pystr pystr)
    (times : list pystr) (shift_name : pystr) : list pystr :=
  let start_m := shift_start_m SHIFT_START shift_name in
  sorted Z.ltb (key start_m) false times.

Definition SHIFT_START : gmap pystr pystr :=
  {[ py "A" := py "06:00"; py "B" := py "14:00"; py "Γ" := py "22:00" ]}.

Definition sort_donetime_list : list pystr → pystr → list pystr :=
  sort_donetime_list_with SHIFT_START.

(** The ordering key of a donetime for a shift: [key] at the start minute
    resolved from the table. *)
Definition shift_relative_key (tstr shift_name : pystr)
    (table : gmap pystr pystr) : Z :=
  key (shift_start_m table shift_name) tstr.

(** ** Insertion-ordered dictionaries *)

Abbreviation odict K V := (list (K * V)).

Section odict.
Context {K V : Type} `{EqDecision K}.

(** [d.get(k)] *)
Fixpoint od_get (k : K) (d : odict K V) : option V :=
  match d with
  | [] => None
  | (k', v) :: d' => if decide (k = k') then Some v else od_get k d'
  end.

(** [d[k] = v]: an existing key keeps its place, a new key goes last. *)
Fixpoint od_set (k : K) (v : V) (d : odict K V) : odict K V :=
  match d with
  | [] => [(k, v)]
  | (k', v') :: d' =>
      if decide (k = k') then (k, v) :: d' else (k', v') :: od_set k v d'
  end.

(** [k in d] *)
Definition od_mem (k : K) (d : odict K V) : bool :=
  match od_get k d with Some _ => true | None => false end.

(** [d.setdefault(k, v)], for its effect on [d]. *)
Definition od_setdefault (k : K) (v : V) (d : odict K V) : odict K V :=
  if od_mem k d then d else od_set k v d.

(** [list(d.keys())] and [d.values()] *)
Definition od_keys (d : odict K V) : list K := d.*1.
Definition od_values (d : odict K V) : list V := d.*2.
End odict.

(** ** build_shift_index *)

Record group := mk_group {
  shiftDate : pystr;
  shift : pystr;
  station : pystr;
  last_time : option time
}.

Definition set_last_time (g : group) (t : option time) : group :=
  mk_group (shiftDate g) (shift g) (station g) t.

Definition group_key (r : record) : pystr * pystr * pystr :=
  (field r "shiftDate", field r "shift", field r "station").

(** One iteration of the loop over [rows]. *)
Definition index_step (idx : odict (pystr * pystr * pystr) group) (r : record)
    : odict (pystr * pystr * pystr) group :=
  let sd := field r "shiftDate" in
  let sh := field r "shift" in
  let st := field r "station" in
  let dt := field r "donetime" in
  if bool_decide (sd = []) || bool_decide (sh = []) || bool_decide (st = [])
     || bool_decide (dt = [])
  then idx
  else
    let t := parse_hhmm_str dt in
    let key := (sd, sh, st) in
    match od_get key idx with
    | None => od_set key (mk_group sd sh st t) idx
    | Some g =>
        match t with
        | Some tv =>
            if match last_time g with
               | None => true
               | Some l => time_ltb l tv
               end
            then od_set key (set_last_time g t) idx
            else idx
        | None => idx
        end
    end.

(** [a < b] on the pairs [(d, t)] that [sort_key] returns. *)
Definition pair_ltb (a b : date * time) : bool :=
  if decide (a.1 = b.1) then time_ltb a.2 b.2 else date_ltb a.1 b.1.

Definition sort_key (x : group) : date * time :=
  let d := match strptime_Ymd (shiftDate x) with
           | Returns d => d
           | Raises _ => date_min   (* [except Exception] *)
           end in
  let t := default time_min (last_time x) in
  (d, t).

Definition build_shift_index (rows : list record) : list group :=
  let idx := foldl index_step [] rows in
  sorted pair_ltb sort_key true (od_values idx).

(** ** build_report *)

Record header_t := mk_header {
  operator : pystr;
  product : pystr;
  productionOrder : pystr
}.

Record row := mk_row {
  label : pystr;
  values : list pystr
}.

Record report := mk_report {
  columns : list pystr;
  matrix : list row;
  header : header_t;
  report_shiftDate : pystr;
  report_shift : pystr;
  report_station : pystr
}.

(** The condition of the comprehension that computes [filtered]. *)
Definition selected (shiftDate shiftName station : pystr) (r : record) : Prop :=
  field r "shiftDate" = shiftDate ∧ field r "shift" = shiftName
  ∧ field r "station" = station.

#[global] Instance selected_dec sd sn st r : Decision (selected sd sn st r).
Proof. unfold selected. apply _. Defined.

(** The records the loop does not skip. *)
Definition kept (ALLOWED_ITEMS : gset pystr) (r : record) : Prop :=
  field r "donetime" ≠ [] ∧ field r "itemname" ∈ ALLOWED_ITEMS.

#[global] Instance kept_dec A r : Decision (kept A r).
Proof. unfold kept. apply _. Defined.

Definition header_of (r : record) : header_t :=
  mk_header (field r "operator") (field r "productproduced")
            (field r "productionOrder").

(** One iteration of the loop over [filtered], on the pair
    [(submissions, meta)]. *)
Definition report_step (ALLOWED_ITEMS : gset pystr)
    (st : odict pystr (odict pystr pystr) * odict pystr header_t) (r : record)
    : odict pystr (odict pystr pystr) * odict pystr header_t :=
  let '(submissions, meta) := st in
  let donetime := field r "donetime" in
  let itemname := field r "itemname" in
  if bool_decide (donetime = []) || negb (bool_decide (itemname ∈ ALLOWED_ITEMS))
  then st
  else
    let submissions := od_setdefault donetime [] submissions in
    let submissions :=
      od_set donetime
        (od_set itemname (normalize_value (get r "itemresult"))
           (default [] (od_get donetime submissions)))
        submissions in
    let meta :=
      if negb (od_mem donetime meta) then od_set donetime (header_of r) meta
      else meta in
    (submissions, meta).

Definition scan (ALLOWED_ITEMS : gset pystr) (filtered : list record)
    : odict pystr (odict pystr pystr) * odict pystr header_t :=
  foldl (report_step ALLOWED_ITEMS) ([], []) filtered.

Definition empty_header : header_t := mk_header [] [] [].

(** [build_report] with the module constants [ORDERED_ITEMS] and
    [SHIFT_START] as arguments; [ALLOWED_ITEMS] is [set(ORDERED_ITEMS)]. *)
Definition build_report_with (ORDERED_ITEMS : list pystr)
    (SHIFT_START : gmap pystr pystr)
    (rows : list record) (shiftDate shiftName station : pystr) : report :=
  let ALLOWED_ITEMS : gset pystr := list_to_set ORDERED_ITEMS in
  let filtered := filter (selected shiftDate shiftName station) rows in
  let '(submissions, meta) := scan ALLOWED_ITEMS filtered in
  let columns := sort_donetime_list_with SHIFT_START (od_keys submissions) shiftName in
  let matrix :=
    (fun item =>
       mk_row item
         ((fun t => default [] (od_get item (default [] (od_get t submissions))))
            <$> columns)) <$> ORDERED_ITEMS in
  let header :=
    match last columns with
    | Some t => default empty_header (od_get t meta)   (* [if columns:] holds *)
    | None => empty_header
    end in
  mk_report columns matrix header shiftDate shiftName station.

Definition ORDERED_ITEMS : list pystr :=
  [ py "Θερμοκρασία λαμινατορίου (°C)";
    py "Είδος μαργαρίνης";
    py "Θερμοκρασία μαργαρίνης (°C)";
    py "Λαμάκι μαργαρίνης (mm)";
    py "Λαμάκι recupero (mm)";
    py "Διάκενο μαχαιριών (cm)";
    py "Πάχος extruder (1η)";
    py "Πάχος extruder (2η)";
    py "Ποσοστό μαργαρίνης (%)";
    py "Ποσοστό ανακύκλωσης ζύμης recupero (%)" ].

Definition build_report : list record → pystr → pystr → pystr → report :=
  build_report_with ORDERED_ITEMS SHIFT_START.

(** Record literals for examples: a JSON object from its string fields. *)
Definition obj (fields : list (string * string)) : record :=
  list_to_map ((fun '(k, v) => (k, VStr (py v))) <$> fields).

(** ** Vocabulary of the statements and example data *)

(** A two-digit rendering, and ["HH:MM"] *)
Definition two_digits (n : Z) : pystr := [Z.to_N (48 + n / 10); Z.to_N (48 + n `mod` 10)].

Definition hhmm (h m : Z) : pystr := two_digits h ++ [colon] ++ two_digits m.

(** The order of the pairs written out on their five numbers. *)
Definition pair_lt (a b : date * time) : Prop :=
  year a.1 < year b.1
  ∨ year a.1 = year b.1
    ∧ (month a.1 < month b.1
       ∨ month a.1 = month b.1
         ∧ (day a.1 < day b.1
            ∨ day a.1 = day b.1
              ∧ (hour a.2 < hour b.2
                 ∨ hour a.2 = hour b.2 ∧ minute a.2 < minute b.2))).

(** The records the loop of [build_shift_index] does not skip. *)
Definition valid (r : record) : Prop :=
  field r "shiftDate" ≠ [] ∧ field r "shift" ≠ [] ∧ field r "station" ≠ []
  ∧ field r "donetime" ≠ [].

#[global] Instance valid_dec r : Decision (valid r).
Proof. unfold valid. apply _. Defined.

Definition donetime_of (r : record) : option time :=
  parse_hhmm_str (field r "donetime").

(** [lt] is the latest parsed donetime among the records of [pre] with key
    [k], or [None] when none of them parses. *)
Definition is_latest (pre : list record) (k : pystr * pystr * pystr)
    (lt : option time) : Prop :=
  match lt with
  | None => ∀ r, r ∈ pre → group_key r = k → donetime_of r = None
  | Some t =>
      (∃ r, r ∈ pre ∧ group_key r = k ∧ donetime_of r = Some t)
      ∧ ∀ r t', r ∈ pre → group_key r = k → donetime_of r = Some t' →
                time_ltb t t' = false
  end.

Record index_inv (pre : list record)
    (idx : odict (pystr * pystr * pystr) group) : Prop := {
  inv_nodup : NoDup (od_keys idx);
  inv_group : ∀ k g, od_get k idx = Some g →
    (shiftDate g, shift g, station g) = k
    ∧ (∃ r, r ∈ pre ∧ valid r ∧ group_key r = k)
    ∧ is_latest pre k (last_time g);
  inv_complete : ∀ r, r ∈ pre → valid r → is_Some (od_get (group_key r) idx)
}.

Definition key_of_group (g : group) : pystr * pystr * pystr :=
  (shiftDate g, shift g, station g).

Definition obj_08_00 : record :=
  obj [("shiftDate", "2024-01-01"); ("shift", "A"); ("station", "Line1");
       ("donetime", "08:00")]%string.
Definition obj_09_30 : record :=
  obj [("shiftDate", "2024-01-01"); ("shift", "A"); ("station", "Line1");
       ("donetime", "09:30")]%string.
Definition obj_no_station : record :=
  obj [("shiftDate", "2024-01-01"); ("shift", "A"); ("donetime", "10:15")]%string.
Definition obj_bad_time : record :=
  obj [("shiftDate", "2024-01-01"); ("shift", "A"); ("station", "Line1");
       ("donetime", "late")]%string.

Definition obj_day1_late : record :=
  obj [("shiftDate", "2024-01-01"); ("shift", "B"); ("station", "Line1");
       ("donetime", "23:50")]%string.
Definition obj_day2_early : record :=
  obj [("shiftDate", "2024-01-02"); ("shift", "A"); ("station", "Line1");
       ("donetime", "00:10")]%string.
Definition obj_no_date : record :=
  obj [("shiftDate", "yesterday"); ("shift", "A"); ("station", "Line1");
       ("donetime", "12:00")]%string.

Abbreviation submissions_t := (odict pystr (odict pystr pystr)).
Abbreviation meta_t := (odict pystr header_t).

Arguments report_step : simpl never.

(** The local variables of [build_report] as functions of its arguments. *)
Definition survivors (items : list pystr) (rows : list record)
    (shiftDate shiftName station : pystr) : list record :=
  filter (kept (list_to_set items)) (filter (selected shiftDate shiftName station) rows).

Definition submissions_of (items : list pystr) (rows : list record)
    (shiftDate shiftName station : pystr) : submissions_t :=
  (scan (list_to_set items) (filter (selected shiftDate shiftName station) rows)).1.

Definition meta_of (items : list pystr) (rows : list record)
    (shiftDate shiftName station : pystr) : meta_t :=
  (scan (list_to_set items) (filter (selected shiftDate shiftName station) rows)).2.

Definition item1 : string := "Θερμοκρασία λαμινατορίου (°C)".
Definition item2 : string := "Είδος μαργαρίνης".

(** The two records of the end-to-end scenario. *)
Definition scenario : list record :=
  [ obj [("shiftDate", "2024-01-01"); ("shift", "A"); ("station", "S1");
         ("donetime", "06:05"); ("itemname", item1); ("itemresult", "72,5");
         ("operator", "John"); ("productproduced", "X"); ("productionOrder", "PO1")];
    obj [("shiftDate", "2024-01-01"); ("shift", "A"); ("station", "S1");
         ("donetime", "07:10"); ("itemname", item1); ("itemresult", "-")] ]%string.

(** Two records at one donetime with different operators, the first one
    preceded by a record with an unrecognized item name. *)
Definition same_donetime : list record :=
  [ obj [("shiftDate", "2024-01-01"); ("shift", "A"); ("station", "S1");
         ("donetime", "06:05"); ("itemname", "unknown item"); ("itemresult", "1");
         ("operator", "Zoe")];
    obj [("shiftDate", "2024-01-01"); ("shift", "A"); ("station", "S1");
         ("donetime", "06:05"); ("itemname", item1); ("itemresult", "70");
         ("operator", "John"); ("productproduced", "X"); ("productionOrder", "PO1")];
    obj [("shiftDate", "2024-01-01"); ("shift", "A"); ("station", "S1");
         ("donetime", "06:05"); ("itemname", item2); ("itemresult", "soft");
         ("operator", "Mary"); ("productproduced", "Y"); ("productionOrder", "PO2")] ]%string.

(** ** Credentials, requests and routes *)

(** The exceptions raised by the functions of this part; all of them derive
    from [Exception]. [RequestError] stands for whatever [requests.get]
    raises. *)
Inductive raised :=
| RuntimeError
| UnicodeEncodeError
| OverflowError
| RequestError.

(** [s.encode("utf-8")]: lone surrogates cannot be encoded. *)
Definition utf8_encode_char (c : N) : raised + list N :=
  (if c <? 128 then inr [c]
   else if c <? 2048 then inr [192 + c / 64; 128 + c mod 64]
   else if c <? 65536 then
     if (55296 <=? c) && (c <=? 57343) then inl UnicodeEncodeError
     else inr [224 + c / 4096; 128 + (c / 64) mod 64; 128 + c mod 64]
   else inr [240 + c / 262144; 128 + (c / 4096) mod 64; 128 + (c / 64) mod 64;
             128 + c mod 64])%N.

Fixpoint utf8_encode (s : pystr) : raised + list N :=
  match s with
  | [] => inr []
  | c :: r =>
      match utf8_encode_char c with
      | inl e => inl e
      | inr bs =>
          match utf8_encode r with
          | inl e => inl e
          | inr bs' => inr (bs ++ bs')
          end
      end
  end.

(** [base64.b64encode(bs).decode("utf-8")]: the standard alphabet, with
    padding. *)
Definition b64_alphabet : pystr :=
  py "ABCDEFGHIJKLMNOPQRSTUVWXYZabcdefghijklmnopqrstuvwxyz0123456789+/".

Definition b64_pad : N := 61.

Definition b64_char (i : N) : N := nth (N.to_nat i) b64_alphabet b64_pad.

Fixpoint b64encode (bs : list N) : pystr :=
  match bs with
  | a :: b :: c :: r =>
      (b64_char (a / 4) :: b64_char ((a mod 4) * 16 + b / 16)
       :: b64_char ((b mod 16) * 4 + c / 64) :: b64_char (c mod 64)
       :: b64encode r)%N
  | [a; b] =>
      [b64_char (a / 4); b64_char ((a mod 4) * 16 + b / 16);
       b64_char ((b mod 16) * 4); b64_pad]%N
  | [a] => [b64_char (a / 4); b64_char ((a mod 4) * 16); b64_pad; b64_pad]%N
  | [] => []
  end.

(** [basic_auth_header], with the module constants [EVOCON_TENANT] and
    [EVOCON_SECRET] as arguments; the dictionary it returns has one key. *)
Definition basic_auth_header (EVOCON_TENANT EVOCON_SECRET : pystr)
    : raised + odict pystr pystr :=
  if bool_decide (EVOCON_TENANT = []) || bool_decide (EVOCON_SECRET = [])
  then inl RuntimeError
  else
    match utf8_encode (EVOCON_TENANT ++ [colon] ++ EVOCON_SECRET) with
    | inl e => inl e
    | inr bs =>
        let token := b64encode bs in
        inr [(py "Authorization", py "Basic " ++ token)]
    end.

(** What the remote service answers: a status code and a body that is not
    JSON, JSON but no list, or a JSON list of objects. *)
Inductive body :=
| Not_json
| Json_other
| Json_list (data : list record).

Record http_response := mk_response {
  status_code : Z;
  response_body : body
}.

(** [fetch_checklists_json]; [requests_get] stands for [requests.get] at
    the fixed URL, called with the headers and the query parameters. *)
Definition fetch_checklists_json (EVOCON_TENANT EVOCON_SECRET : pystr)
    (requests_get : odict pystr pystr → odict pystr pystr → raised + http_response)
    (start_date end_date : pystr) : raised + list record :=
  match basic_auth_header EVOCON_TENANT EVOCON_SECRET with
  | inl e => inl e
  | inr auth =>
      let headers :=
        foldl (fun d '(k, v) => od_set k v d)
              [(py "Accept", py "application/json")] auth in
      let params := [(py "startTime", start_date); (py "endTime", end_date)] in
      match requests_get headers params with
      | inl e => inl e
      | inr r =>
          if negb (status_code r =? 200) then inl RuntimeError
          else
            match response_body r with
            | Not_json => inl RuntimeError
            | Json_other => inl RuntimeError
            | Json_list data => inr data
            end
      end
  end.

(** [str.split(sep)] for a one-character separator. *)
Fixpoint split (sep : N) (s : pystr) : list pystr :=
  match s with
  | [] => [[]]
  | c :: r =>
      if (c =? sep)%N then [] :: split sep r
      else
        match split sep r with
        | p :: ps => (c :: p) :: ps
        | [] => [[c]]
        end
  end.

Definition bar : N := 124.

(** [d + timedelta(days=1)] and [d - timedelta(days=1)]: the next and the
    previous day of the calendar, [OverflowError] beyond [date.max] and
    before [date.min]. *)
Definition plus_one_day (d : date) : raised + date :=
  if day d <? days_in_month (year d) (month d)
  then inr (mk_date (year d) (month d) (day d + 1))
  else if month d <? 12 then inr (mk_date (year d) (month d + 1) 1)
  else if year d <? 9999 then inr (mk_date (year d + 1) 1 1)
  else inl OverflowError.

Definition minus_one_day (d : date) : raised + date :=
  if 1 <? day d then inr (mk_date (year d) (month d) (day d - 1))
  else if 1 <? month d
  then inr (mk_date (year d) (month d - 1) (days_in_month (year d) (month d - 1)))
  else if 1 <? year d then inr (mk_date (year d - 1) 12 31)
  else inl OverflowError.

(** The answers of the two routes, without the wording of their texts. *)
Inductive response :=
| No_shifts_found
| Picker_page (shifts : list group)
| Invalid_selection
| Bad_shiftDate
| No_data_found (shiftDate shiftName station : pystr) (start_date end_date : date)
| Print_form (rep : report)
| Error_page (shiftDate shiftName station : pystr) (start_date end_date : date).

(** [render_print]; [key] is [request.args.get("key", "")] and [fetch] is
    [fetch_checklists_json] applied to the two dates written as
    ["%Y-%m-%d"]. *)
Definition render_print (fetch : date → date → raised + list record)
    (key : pystr) : raised + response :=
  match split bar key with
  | [p0; p1; p2] =>
      let shiftDate := strip p0 in
      let shiftName := strip p1 in
      let station := strip p2 in
      match strptime_Ymd shiftDate with
      | Raises _ => inr Bad_shiftDate
      | Returns day =>
          match minus_one_day day with
          | inl e => inl e
          | inr start_date =>
              match plus_one_day day with
              | inl e => inl e
              | inr end_date =>
                  match fetch start_date end_date with
                  | inl _ => inr (Error_page shiftDate shiftName station start_date end_date)
                  | inr rows =>
                      let report := build_report rows shiftDate shiftName station in
                      if bool_decide (columns report = [])
                      then inr (No_data_found shiftDate shiftName station
                                              start_date end_date)
                      else inr (Print_form report)
                  end
              end
          end
      end
  | _ => inr Invalid_selection
  end.

(** [d - timedelta(days=n)] *)
Fixpoint minus_days (n : nat) (d : date) : raised + date :=
  match n with
  | O => inr d
  | S n' =>
      match minus_one_day d with
      | inl e => inl e
      | inr d' => minus_days n' d'
      end
  end.

(** An element of the list the service returns: a JSON object, or any
    other JSON value, which has no [get] method. *)
Inductive json_row :=
| Row_object (r : record)
| Row_other.

(** The rows as records, for [build_shift_index]: [None] when some row is no
    object, where [r.get] raises [AttributeError] and nothing is returned. *)
Fixpoint row_objects (rows : list json_row) : option (list record) :=
  match rows with
  | [] => Some []
  | Row_object r :: rows' =>
      match row_objects rows' with
      | Some records => Some (r :: records)
      | None => None
      end
  | Row_other :: _ => None
  end.

(** How a call of [picker] ends: with an answer, or with an exception,
    since nothing is caught there. *)
Inductive picker_result :=
| Picker_returns (resp : response)
| Picker_raises (e : raised)
| Picker_raises_AttributeError
| Picker_raises_in_template.

(** [picker]; [today] is [datetime.now().date()], [fetch] is
    [fetch_checklists_json] applied to the two dates written as
    ["%Y-%m-%d"], and [render_template] stands for
    [render_template("picker.html", shifts=shifts)]: the page, or [None]
    when rendering raises. *)
Definition picker (fetch : date → date → raised + list json_row)
    (render_template : list group → option response) (today : date)
    : picker_result :=
  match minus_days 3 today with
  | inl e => Picker_raises e
  | inr start_date =>
      match fetch start_date today with
      | inl e => Picker_raises e
      | inr rows =>
          match row_objects rows with
          | None => Picker_raises_AttributeError
          | Some records =>
              let shifts := build_shift_index records in
              if bool_decide (shifts = []) then Picker_returns No_shifts_found
              else
                match render_template shifts with
                | Some page => Picker_returns page
                | None => Picker_raises_in_template
                end
          end
      end
  end.

(** Decoders, to state what the encoders preserve. *)
Definition b64_index (c : N) : N :=
  (if (65 <=? c) && (c <=? 90) then c - 65
   else if (97 <=? c) && (c <=? 122) then c - 71
   else if (48 <=? c) && (c <=? 57) then c + 4
   else if c =? 43 then 62
   else 63)%N.

Fixpoint b64decode (cs : pystr) : list N :=
  match cs with
  | c0 :: c1 :: c2 :: c3 :: r =>
      let n0 := b64_index c0 in
      let n1 := b64_index c1 in
      let n2 := b64_index c2 in
      let n3 := b64_index c3 in
      (if c2 =? b64_pad then [n0 * 4 + n1 / 16]
       else if c3 =? b64_pad then [n0 * 4 + n1 / 16; (n1 mod 16) * 16 + n2 / 4]
       else n0 * 4 + n1 / 16 :: (n1 mod 16) * 16 + n2 / 4 :: (n2 mod 4) * 64 + n3
            :: b64decode r)%N
  | _ => []
  end.

(** A date of the calendar between [date.min] and [date.max]. *)
Definition valid_date (d : date) : Prop :=
  1 ≤ year d ≤ 9999 ∧ 1 ≤ month d ≤ 12 ∧ 1 ≤ day d ≤ days_in_month (year d) (month d).

(** The key [date|shift|station] of a group, in the form [render_print]
    splits. *)
Definition selection_key (g : group) : pystr :=
  shiftDate g ++ [bar] ++ shift g ++ [bar] ++ station g.

(** A four-digit rendering *)
Definition four_digits (n : Z) : pystr :=
  [Z.to_N (48 + n / 1000); Z.to_N (48 + (n / 100) `mod` 10);
   Z.to_N (48 + (n / 10) `mod` 10); Z.to_N (48 + n `mod` 10)].

(** The text ["YYYY-MM-DD"] of a date, zero-padded. *)
Definition iso_date (d : date) : pystr :=
  four_digits (year d) ++ [hyphen] ++ two_digits (month d) ++ [hyphen]
  ++ two_digits (day d).

(** * Properties *)

(** ** Strings *)

Lemma replace_no_comma (s : pystr) : comma ∉ replace comma period s.
Proof.
  unfold replace. intros (c & Hc & _)%list_elem_of_fmap. revert Hc.
  destruct (N.eqb_spec c comma) as [->|Hne]; [discriminate | congruence].
Qed.

Lemma replace_lookup (s : pystr) (i : nat) :
  replace comma period s !! i
  = ((fun c => if decide (c = comma) then period else c) <$> (s !! i)).
Proof.
  unfold replace. rewrite list_lookup_fmap.
  destruct (s !! i) as [c|]; simpl; [|done].
  destruct (N.eqb_spec c comma); case_decide; congruence.
Qed.

Lemma strip_nil : strip [] = [].
Proof. reflexivity. Qed.

(** ** strptime and parse_hhmm *)

Lemma strptime_HM_raises (s : pystr) (e : exn) :
  strptime_HM s = Raises e → e = ValueError.
Proof.
  unfold strptime_HM.
  destruct (head _) as [[[h m] [|c r]]|]; intros H; by simplify_eq.
Qed.

Lemma strptime_Ymd_raises (s : pystr) (e : exn) :
  strptime_Ymd s = Raises e → e = ValueError.
Proof.
  unfold strptime_Ymd.
  destruct (head _) as [[[[y m] d] [|c r]]|]; [destruct (_ && _)|..];
    intros H; by simplify_eq.
Qed.

Lemma parse_hhmm_str_spec (s : pystr) :
  parse_hhmm (VStr s) = Returns (parse_hhmm_str s).
Proof.
  unfold parse_hhmm, parse_hhmm_str; simpl.
  destruct (strptime_HM (strip s)) as [t|e] eqn:E; simpl; [done|].
  by rewrite (strptime_HM_raises _ _ E).
Qed.

Lemma parse_hhmm_not_str (v : value) :
  (∀ s, v ≠ VStr s) → parse_hhmm v = Returns None.
Proof. destruct v; intros H; [done | by destruct (H s) | done]. Qed.

Lemma digit_range (c : N) (d : Z) : digit c = Some d → 0 ≤ d ≤ 9.
Proof.
  unfold digit. destruct (find _ _) as [[b n]|]; intros H; simplify_eq.
  assert ((c - b) mod 10 < 10)%N by (by apply N.mod_upper_bound).
  revert H. generalize ((c - b) `mod` 10)%N. lia.
Qed.

Lemma digit_in_range (lo hi : Z) (c : N) (d : Z) :
  digit_in lo hi c = Some d → lo ≤ d ≤ hi.
Proof. unfold digit_in. case_match; intros; simplify_eq. lia. Qed.

Lemma elem_of_one cls s d r :
  (d, r) ∈ one cls s → ∃ c, s = c :: r ∧ cls c = Some d.
Proof.
  destruct s as [|c s]; simpl; [by intros ?%elem_of_nil|].
  destruct (cls c) eqn:E; [|by intros ?%elem_of_nil].
  intros ?%list_elem_of_singleton; simplify_eq. eauto.
Qed.

Lemma elem_of_two c1 c2 s d r :
  (d, r) ∈ two c1 c2 s →
  ∃ a b x y, s = x :: y :: r ∧ c1 x = Some a ∧ c2 y = Some b ∧ d = 10 * a + b.
Proof.
  unfold two. intros [[a r1] [H1 H2]]%list_elem_of_bind.
  apply list_elem_of_bind in H1 as [[b r2] [H1 H3]].
  apply list_elem_of_singleton in H1. simplify_eq.
  apply elem_of_one in H2 as [x [-> Hx]]. apply elem_of_one in H3 as [y [-> Hy]].
  by exists a, b, x, y.
Qed.

Lemma re_H_range s h r : (h, r) ∈ re_H s → 0 ≤ h < 24.
Proof.
  unfold re_H. rewrite !elem_of_app.
  intros [H|[H|H]].
  - apply elem_of_two in H as (a & b & x & y & _ & Ha%digit_in_range & Hb%digit_in_range & ->). lia.
  - apply elem_of_two in H as (a & b & x & y & _ & Ha%digit_in_range & Hb%digit_range & ->). lia.
  - apply elem_of_one in H as (c & _ & Hc%digit_range). lia.
Qed.

Lemma re_M_range s m r : (m, r) ∈ re_M s → 0 ≤ m < 60.
Proof.
  unfold re_M. rewrite !elem_of_app.
  intros [H|H].
  - apply elem_of_two in H as (a & b & x & y & _ & Ha%digit_in_range & Hb%digit_range & ->). lia.
  - apply elem_of_one in H as (c & _ & Hc%digit_range). lia.
Qed.

Lemma strptime_HM_range (s : pystr) (t : time) :
  strptime_HM s = Returns t → 0 ≤ hour t < 24 ∧ 0 ≤ minute t < 60.
Proof.
  unfold strptime_HM.
  destruct (head _) as [[[h m] [|c r]]|] eqn:E; intros H; simplify_eq.
  apply head_Some_elem_of in E.
  apply list_elem_of_bind in E as [[h' r0] [E Hh]].
  apply list_elem_of_bind in E as [r1 [E _]].
  apply list_elem_of_bind in E as [[m' r2] [E Hm]].
  apply list_elem_of_singleton in E. simplify_eq. simpl.
  eauto using re_H_range, re_M_range.
Qed.

Lemma parse_hhmm_str_range (s : pystr) (t : time) :
  parse_hhmm_str s = Some t → 0 ≤ hour t < 24 ∧ 0 ≤ minute t < 60.
Proof.
  unfold parse_hhmm_str. destruct (strptime_HM _) eqn:E; intros; simplify_eq.
  eauto using strptime_HM_range.
Qed.

Lemma parse_hhmm_str_nil : parse_hhmm_str [] = None.
Proof. reflexivity. Qed.

Lemma minutes_range (s : pystr) (t : time) :
  parse_hhmm_str s = Some t → 0 ≤ minutes t < 1440.
Proof. intros [??]%parse_hhmm_str_range. unfold minutes. lia. Qed.

Lemma parse_hhmm_str_hhmm (h m : Z) :
  0 ≤ h < 24 → 0 ≤ m < 60 → parse_hhmm_str (hhmm h m) = Some (mk_time h m).
Proof.
  intros Hh Hm.
  assert (Hall : forallb (fun h => forallb (fun m =>
            bool_decide (parse_hhmm_str (hhmm h m) = Some (mk_time h m)))
            (seqZ 0 60)) (seqZ 0 24) = true) by (vm_compute; reflexivity).
  rewrite forallb_forall in Hall.
  assert (Hh' : h ∈ seqZ 0 24) by (apply elem_of_seqZ; lia).
  apply list_elem_of_In, Hall in Hh'. rewrite forallb_forall in Hh'.
  assert (Hm' : m ∈ seqZ 0 60) by (apply elem_of_seqZ; lia).
  apply list_elem_of_In, Hh' in Hm'. by apply bool_decide_eq_true in Hm'.
Qed.

(** ** Insertion-ordered dictionaries *)

Section odict_facts.
Context {K V : Type} `{EqDecision K}.
Implicit Types (k : K) (v : V) (d : odict K V).

Lemma od_get_set_eq k v d : od_get k (od_set k v d) = Some v.
Proof.
  induction d as [|[k' v'] d IH]; simpl; repeat (case_decide; simpl); done.
Qed.

Lemma od_get_set_ne k k' v d : k ≠ k' → od_get k' (od_set k v d) = od_get k' d.
Proof.
  intros Hne. induction d as [|[k0 v0] d IH]; simpl;
    repeat (case_decide; simpl); congruence.
Qed.

Lemma od_get_set k k' v d :
  od_get k' (od_set k v d) = if decide (k = k') then Some v else od_get k' d.
Proof.
  case_decide; [subst; apply od_get_set_eq | by apply od_get_set_ne].
Qed.

Lemma od_get_None k d : od_get k d = None ↔ k ∉ od_keys d.
Proof.
  unfold od_keys. induction d as [|[k' v'] d IH]; simpl.
  - split; [intros _; apply not_elem_of_nil | done].
  - rewrite not_elem_of_cons. case_decide; [|tauto].
    split; [done | intros [? _]; done].
Qed.

Lemma od_get_Some_elem_of k v d : od_get k d = Some v → (k, v) ∈ d.
Proof.
  induction d as [|[k' v'] d IH]; simpl; [done|].
  case_decide; intros; simplify_eq; [left | right; auto].
Qed.

Lemma od_get_is_Some k d : is_Some (od_get k d) ↔ k ∈ od_keys d.
Proof.
  rewrite <-not_eq_None_Some, od_get_None.
  split; [apply dec_stable | tauto].
Qed.

Lemma od_mem_true k d : od_mem k d = true ↔ k ∈ od_keys d.
Proof.
  rewrite <-od_get_is_Some. unfold od_mem, is_Some.
  destruct (od_get k d); split; try done; eauto. by intros [].
Qed.

Lemma od_keys_set k v d :
  od_keys (od_set k v d) = if od_mem k d then od_keys d else od_keys d ++ [k].
Proof.
  unfold od_keys, od_mem. induction d as [|[k' v'] d IH]; [done|].
  simpl od_set; simpl od_get. case_decide; [by subst|].
  rewrite !fmap_cons, IH. by destruct (od_get k d).
Qed.

Lemma od_set_NoDup k v d : NoDup (od_keys d) → NoDup (od_keys (od_set k v d)).
Proof.
  intros Hd. rewrite od_keys_set.
  destruct (od_mem k d) eqn:E; [done|].
  apply NoDup_app. split_and!; [done | | apply NoDup_singleton].
  intros x Hx ->%list_elem_of_singleton.
  apply od_mem_true in Hx. congruence.
Qed.

Lemma od_elem_of_get k v d : NoDup (od_keys d) → (k, v) ∈ d → od_get k d = Some v.
Proof.
  unfold od_keys. induction d as [|[k' v'] d IH]; simpl.
  - by intros _ ?%elem_of_nil.
  - intros [Hk Hd]%NoDup_cons [Heq|Hin]%elem_of_cons.
    + simplify_eq. by rewrite decide_True.
    + case_decide; [|auto]. subst.
      destruct Hk. apply list_elem_of_fmap. by exists (k', v).
Qed.

Lemma od_values_elem_of v d :
  NoDup (od_keys d) → v ∈ od_values d ↔ ∃ k, od_get k d = Some v.
Proof.
  intros Hd. unfold od_values. rewrite list_elem_of_fmap. split.
  - intros [[k v'] [-> Hin]]. exists k. by apply od_elem_of_get.
  - intros [k Hk%od_get_Some_elem_of]. by exists (k, v).
Qed.
End odict_facts.

(** ** sorted *)

Section sorted_facts.
Context {A K : Type} (ltb : K → K → bool) (key : A → K) (reverse : bool).

Hypothesis before_asym : ∀ a b,
  before ltb reverse a b = true → before ltb reverse b a = false.
Hypothesis before_negtrans : ∀ a b c,
  before ltb reverse b a = false → before ltb reverse c b = false →
  before ltb reverse c a = false.

Lemma insert_sorted_perm x l : insert_sorted ltb key reverse x l ≡ₚ x :: l.
Proof.
  induction l as [|y l IH]; simpl; [done|].
  case_match; [|done]. rewrite IH. apply Permutation_swap.
Qed.

Lemma sorted_perm l : sorted ltb key reverse l ≡ₚ l.
Proof.
  induction l as [|x l IH]; simpl; [done|].
  by rewrite insert_sorted_perm, IH.
Qed.

Lemma insert_sorted_sorted x l :
  StronglySorted (in_order ltb key reverse) l →
  StronglySorted (in_order ltb key reverse) (insert_sorted ltb key reverse x l).
Proof.
  induction 1 as [|y l Hl IH Hy]; simpl.
  - repeat constructor.
  - destruct (before ltb reverse (key y) (key x)) eqn:E.
    + constructor; [done|].
      rewrite insert_sorted_perm. constructor; [|done].
      by apply before_asym.
    + constructor; [by constructor|].
      constructor; [done|].
      eapply Forall_impl; [exact Hy|].
      intros z Hz. by eapply before_negtrans.
Qed.

Lemma sorted_sorted l : StronglySorted (in_order ltb key reverse) (sorted ltb key reverse l).
Proof.
  induction l as [|x l IH]; simpl; [constructor | by apply insert_sorted_sorted].
Qed.

Lemma sorted_nil_inv l : sorted ltb key reverse l = [] → l = [].
Proof.
  intros H. apply Permutation_nil_r. rewrite <-H. symmetry. apply sorted_perm.
Qed.
End sorted_facts.

Lemma StronglySorted_weaken {A} (R R' : A → A → Prop) (l : list A) :
  (∀ x y, R x y → R' x y) → StronglySorted R l → StronglySorted R' l.
Proof.
  intros HR. induction 1 as [|x l Hl IH Hx]; constructor; [done|].
  eapply Forall_impl; eauto.
Qed.

Lemma StronglySorted_lookup {A} (R : A → A → Prop) (l : list A) i j x y :
  StronglySorted R l → l !! i = Some x → l !! j = Some y → (i < j)%nat → R x y.
Proof.
  intros Hl. revert i j. induction Hl as [|z l Hl IH Hz]; intros i j Hi Hj Hlt.
  - by rewrite lookup_nil in Hi.
  - destruct j as [|j]; [lia|]. destruct i as [|i]; simpl in *.
    + simplify_eq. rewrite Forall_forall in Hz. eapply Hz, list_elem_of_lookup_2, Hj.
    + eapply IH; eauto. lia.
Qed.

(** In a list sorted for [R], an element that must not stand after another
    stands before it. *)
Lemma StronglySorted_lookup_lt {A} (R : A → A → Prop) (l : list A) i j x y :
  StronglySorted R l → l !! i = Some x → l !! j = Some y → ¬ R y x → x ≠ y →
  (i < j)%nat.
Proof.
  intros Hl Hi Hj Hyx Hne.
  destruct (decide (i < j)%nat) as [|Hge]; [done|].
  destruct (decide (i = j)) as [->|]; [congruence|].
  assert (j < i)%nat as Hlt by lia.
  destruct Hyx. exact (StronglySorted_lookup R l j i y x Hl Hj Hi Hlt).
Qed.

(** ** Value Normalizer *)

(** C6. [normalize_value] maps [None] to the empty string; any other value
    is rendered with [str] and trimmed, the placeholders ["-"], ["N/A"] and
    ["n/a"] become the empty string, and otherwise every comma is replaced
    by a period (all other characters are kept in place). Hence the result
    never contains a comma, whatever the raw value, and
    [normalize_value(" 3,5 ") == "3.5"]. *)
Theorem normalize_value_spec (v : value) :
  normalize_value VNone = []
  ∧ normalize_value v =
      match v with
      | VNone => []
      | _ =>
          let s := strip (str v) in
          if decide (s = py "-" ∨ s = py "N/A" ∨ s = py "n/a") then []
          else replace comma period s
      end
  ∧ (∀ (s : pystr) (i : nat),
       replace comma period s !! i
       = ((fun c => if decide (c = comma) then period else c) <$> (s !! i)))
  ∧ (comma ∉ normalize_value v)
  ∧ normalize_value (VStr (py " 3,5 ")) = py "3.5"
  ∧ normalize_value (VStr (py "-")) = []
  ∧ normalize_value (VStr (py "N/A")) = []
  ∧ normalize_value (VStr (py "n/a")) = []
  ∧ normalize_value (VOther true (py "72,5")) = py "72.5".
Proof.
  assert (Heq : ∀ w, w ≠ VNone → normalize_value w =
            if decide (strip (str w) = py "-" ∨ strip (str w) = py "N/A"
                       ∨ strip (str w) = py "n/a")
            then [] else replace comma period (strip (str w))).
  { intros w Hw. destruct w; [done|..]; unfold normalize_value;
      case_bool_decide as Hin; rewrite !elem_of_cons, elem_of_nil in Hin;
      case_decide; tauto. }
  split_and!; try reflexivity.
  - destruct v; [done|..]; by apply Heq.
  - apply replace_lookup.
  - destruct v; [apply not_elem_of_nil|..]; rewrite Heq by done;
      (case_decide; [apply not_elem_of_nil | apply replace_no_comma]).
Qed.

(** ** Time Utilities *)

(** C7. On a string, [parse_hhmm] never raises: it returns [None] whenever
    parsing fails, in particular for [""], ["abc"] and ["25:99"], and
    otherwise a time of day with hour below 24 and minute below 60; every
    well-formed 24-hour ["HH:MM"] string, such as ["06:00"] and ["23:59"],
    gives its time. *)
Theorem parse_hhmm_on_strings (s : pystr) :
  (∃ o, parse_hhmm (VStr s) = Returns o
        ∧ match o with
          | Some t => 0 ≤ hour t < 24 ∧ 0 ≤ minute t < 60
          | None => True
          end)
  ∧ (∀ e, strptime_HM (strip s) = Raises e → parse_hhmm (VStr s) = Returns None)
  ∧ parse_hhmm (VStr (py "")) = Returns None
  ∧ parse_hhmm (VStr (py "abc")) = Returns None
  ∧ parse_hhmm (VStr (py "25:99")) = Returns None
  ∧ parse_hhmm (VStr (py "06:00")) = Returns (Some (mk_time 6 0))
  ∧ parse_hhmm (VStr (py "23:59")) = Returns (Some (mk_time 23 59))
  ∧ (∀ h m, 0 ≤ h < 24 → 0 ≤ m < 60 →
       parse_hhmm (VStr (hhmm h m)) = Returns (Some (mk_time h m))).
Proof.
  split_and!; try reflexivity.
  - exists (parse_hhmm_str s). split; [apply parse_hhmm_str_spec|].
    destruct (parse_hhmm_str s) as [t|] eqn:E; [|done].
    by apply parse_hhmm_str_range in E.
  - intros e He. rewrite parse_hhmm_str_spec. unfold parse_hhmm_str. by rewrite He.
  - intros h m Hh Hm. by rewrite parse_hhmm_str_spec, parse_hhmm_str_hhmm.
Qed.

Lemma parse_hhmm_on_strings_witness :
  parse_hhmm (VStr (hhmm 6 0)) = Returns (Some (mk_time 6 0)).
Proof.
  apply (parse_hhmm_on_strings (py "06:00")); lia.
Defined.

(** C10. [parse_hhmm] is total over arbitrary arguments: whatever value it
    is given it returns a time or [None] and raises nothing. Every failure
    of its body, the missing [strip] attribute of a non-string as well as a
    parse error, is an [Exception], which the handler turns into [None]. *)
Theorem parse_hhmm_total (v : value) :
  (∃ o, parse_hhmm v = Returns o)
  ∧ (∀ e, (s ← call_strip v; t ← strptime_HM s; mret (Some t)) = Raises e →
          is_Exception e = true ∧ parse_hhmm v = Returns None)
  ∧ parse_hhmm VNone = Returns None
  ∧ (∀ b t, parse_hhmm (VOther b t) = Returns None)
  ∧ (∀ s, parse_hhmm (VStr s) = Returns (parse_hhmm_str s)).
Proof.
  split_and!; try done.
  - destruct v; [by eexists | | by eexists].
    eexists. apply parse_hhmm_str_spec.
  - intros e He. unfold parse_hhmm. rewrite He. simpl.
    destruct v; simpl in He; simplify_eq; [done| |done].
    destruct (strptime_HM (strip s)) as [t|e'] eqn:E; simpl in He; simplify_eq.
    by rewrite (strptime_HM_raises _ _ E).
  - apply parse_hhmm_str_spec.
Qed.

Lemma parse_hhmm_total_witness :
  is_Exception AttributeError = true ∧ parse_hhmm (VOther true (py "7")) = Returns None.
Proof.
  apply (parse_hhmm_total (VOther true (py "7"))). reflexivity.
Defined.

Lemma key_range (start_m : Z) (tstr : pystr) : 0 ≤ key start_m tstr < 1440.
Proof. unfold key. apply Z.mod_pos_bound. lia. Qed.

Lemma sort_donetime_list_with_sorted table times shift_name :
  StronglySorted
    (fun a b => shift_relative_key a shift_name table ≤ shift_relative_key b shift_name table)
    (sort_donetime_list_with table times shift_name).
Proof.
  unfold sort_donetime_list_with, shift_relative_key.
  eapply StronglySorted_weaken;
    [|apply (sorted_sorted Z.ltb (key (shift_start_m table shift_name)) false)].
  - unfold in_order, before. intros a b ?%Z.ltb_ge. done.
  - unfold before. intros a b ?%Z.ltb_lt. apply Z.ltb_ge. lia.
  - unfold before. intros a b c ?%Z.ltb_ge ?%Z.ltb_ge. apply Z.ltb_ge. lia.
Qed.

(** C2. The shift-relative key of a donetime is (donetime minutes - shift
    start minutes) mod 1440, where the start counts as 00:00 for a label the
    table does not know and the donetime as 00:00 when it does not parse;
    it lies in [0, 1440), and [sort_donetime_list] returns its argument
    rearranged in ascending order of this key. With the shift's start at
    22:00, ["23:00"] has key 60 and ["01:00"] key 180, and
    [["06:00"; "23:00"; "01:00"]] is sorted to [["23:00"; "01:00"; "06:00"]]. *)
Theorem shift_relative_key_spec (tstr shift_name : pystr)
    (table : gmap pystr pystr) (times : list pystr) :
  let donetime_minutes := from_option minutes 0 (parse_hhmm_str tstr) in
  let start_minutes :=
    from_option (fun s => from_option minutes 0 (parse_hhmm_str s)) 0
                (table !! shift_name) in
  shift_relative_key tstr shift_name table
    = (donetime_minutes - start_minutes) `mod` 1440
  ∧ 0 ≤ shift_relative_key tstr shift_name table < 1440
  ∧ sort_donetime_list_with table times shift_name ≡ₚ times
  ∧ StronglySorted
      (fun a b => shift_relative_key a shift_name table
                  ≤ shift_relative_key b shift_name table)
      (sort_donetime_list_with table times shift_name)
  ∧ (table !! py "Γ" = Some (py "22:00") →
       shift_relative_key (py "23:00") (py "Γ") table = 60
       ∧ shift_relative_key (py "01:00") (py "Γ") table = 180
       ∧ sort_donetime_list_with table [py "06:00"; py "23:00"; py "01:00"] (py "Γ")
         = [py "23:00"; py "01:00"; py "06:00"])
  ∧ sort_donetime_list [py "06:00"; py "23:00"; py "01:00"] (py "Γ")
    = [py "23:00"; py "01:00"; py "06:00"].
Proof.
  split_and!.
  - unfold shift_relative_key, key, shift_start_m.
    destruct (table !! shift_name) as [start_str|]; simpl;
      [destruct (parse_hhmm_str start_str); simpl|];
      by destruct (parse_hhmm_str tstr).
  - apply key_range.
  - apply key_range.
  - apply sorted_perm.
  - apply sort_donetime_list_with_sorted.
  - intros HG. unfold sort_donetime_list_with, shift_relative_key, shift_start_m.
    rewrite HG. split_and!; reflexivity.
  - reflexivity.
Qed.

Lemma shift_relative_key_spec_witness :
  shift_relative_key (py "23:00") (py "Γ") SHIFT_START = 60
  ∧ shift_relative_key (py "01:00") (py "Γ") SHIFT_START = 180
  ∧ sort_donetime_list_with SHIFT_START [py "06:00"; py "23:00"; py "01:00"] (py "Γ")
    = [py "23:00"; py "01:00"; py "06:00"].
Proof.
  apply (shift_relative_key_spec [] [] SHIFT_START []). reflexivity.
Defined.

(** ** Order on times, dates and sort keys *)

Ltac bool_to_Z :=
  rewrite ?orb_true_iff, ?andb_true_iff, ?orb_false_iff, ?andb_false_iff,
    ?Z.ltb_lt, ?Z.ltb_ge, ?Z.eqb_eq, ?Z.eqb_neq in *.

Lemma time_ltb_irrefl (t : time) : time_ltb t t = false.
Proof. destruct t. unfold time_ltb; simpl. bool_to_Z. lia. Qed.

Lemma time_ltb_le_lt (l tv t' : time) :
  time_ltb l tv = true → time_ltb l t' = false → time_ltb tv t' = false.
Proof.
  destruct l, tv, t'. unfold time_ltb; simpl. intros H1 H2. bool_to_Z. lia.
Qed.

Lemma pair_ltb_spec (a b : date * time) : pair_ltb a b = true ↔ pair_lt a b.
Proof.
  destruct a as [[y1 m1 d1] [h1 i1]], b as [[y2 m2 d2] [h2 i2]].
  unfold pair_ltb, pair_lt, date_ltb, time_ltb; simpl.
  case_decide as Hd.
  - simplify_eq. bool_to_Z. lia.
  - assert (¬ (y1 = y2 ∧ m1 = m2 ∧ d1 = d2)) by (by intros (-> & -> & ->)).
    bool_to_Z. lia.
Qed.

Lemma pair_ltb_false (a b : date * time) : pair_ltb a b = false ↔ ¬ pair_lt a b.
Proof. by rewrite <-pair_ltb_spec, not_true_iff_false. Qed.

Lemma pair_ltb_asym (a b : date * time) : pair_ltb b a = true → pair_ltb a b = false.
Proof. rewrite pair_ltb_false, pair_ltb_spec. unfold pair_lt. lia. Qed.

Lemma pair_ltb_negtrans (a b c : date * time) :
  pair_ltb a b = false → pair_ltb b c = false → pair_ltb a c = false.
Proof. rewrite !pair_ltb_false. unfold pair_lt. lia. Qed.

Lemma pair_ltb_date (a b : date * time) :
  date_ltb a.1 b.1 = true → pair_ltb a b = true.
Proof.
  rewrite pair_ltb_spec. destruct a as [[y1 m1 d1] t1], b as [[y2 m2 d2] t2].
  unfold date_ltb, pair_lt; simpl. intros H. bool_to_Z. lia.
Qed.

Lemma pair_ltb_time (a b : date * time) :
  a.1 = b.1 → time_ltb a.2 b.2 = true → pair_ltb a b = true.
Proof. unfold pair_ltb. intros -> ?. by rewrite decide_True. Qed.

Lemma pair_ltb_irrefl (a : date * time) : pair_ltb a a = false.
Proof. rewrite pair_ltb_false. unfold pair_lt. lia. Qed.

(** No date that parses is before [datetime.min.date()]. *)
Lemma re_m_range s m r : (m, r) ∈ re_m s → 1 ≤ m ≤ 12.
Proof.
  unfold re_m. rewrite !elem_of_app. intros [H|[H|H]].
  - apply elem_of_two in H as (a & b & x & y & _ & Ha%digit_in_range & Hb%digit_in_range & ->). lia.
  - apply elem_of_two in H as (a & b & x & y & _ & Ha%digit_in_range & Hb%digit_in_range & ->). lia.
  - apply elem_of_one in H as (c & _ & Hc%digit_in_range). lia.
Qed.

Lemma re_d_range s d r : (d, r) ∈ re_d s → 1 ≤ d ≤ 31.
Proof.
  unfold re_d. rewrite !elem_of_app. intros [H|[H|[H|[H|H]]]].
  - apply elem_of_two in H as (a & b & x & y & _ & Ha%digit_in_range & Hb%digit_in_range & ->). lia.
  - apply elem_of_two in H as (a & b & x & y & _ & Ha%digit_in_range & Hb%digit_range & ->). lia.
  - apply elem_of_two in H as (a & b & x & y & _ & Ha%digit_in_range & Hb%digit_in_range & ->). lia.
  - apply elem_of_one in H as (c & _ & Hc%digit_in_range). lia.
  - apply list_elem_of_bind in H as (r' & H & _).
    apply elem_of_one in H as (c & _ & Hc%digit_in_range). lia.
Qed.

Lemma strptime_Ymd_range (s : pystr) (d : date) :
  strptime_Ymd s = Returns d → 1 ≤ year d ∧ 1 ≤ month d ≤ 12 ∧ 1 ≤ day d ≤ 31.
Proof.
  unfold strptime_Ymd.
  destruct (head _) as [[[[y m] d'] [|c r]]|] eqn:E; [|done..].
  destruct (_ && _) eqn:Hv; intros H; simplify_eq. simpl.
  apply head_Some_elem_of in E.
  apply list_elem_of_bind in E as [[y' r0] [E _]].
  apply list_elem_of_bind in E as [r1 [E _]].
  apply list_elem_of_bind in E as [[m' r2] [E Hm]].
  apply list_elem_of_bind in E as [r3 [E _]].
  apply list_elem_of_bind in E as [[d'' r4] [E Hd]].
  apply list_elem_of_singleton in E. simplify_eq.
  apply re_m_range in Hm. apply re_d_range in Hd. bool_to_Z. lia.
Qed.

Lemma sort_key_date_min (g : group) : date_ltb (sort_key g).1 date_min = false.
Proof.
  unfold sort_key; simpl.
  destruct (strptime_Ymd (shiftDate g)) as [[y m d]|] eqn:E; [|done].
  apply strptime_Ymd_range in E. simpl in E.
  unfold date_ltb; simpl. bool_to_Z. lia.
Qed.

(** ** Shift Indexer *)

Lemma index_step_skip idx r : ¬ valid r → index_step idx r = idx.
Proof.
  unfold valid, index_step. intros Hv.
  repeat case_bool_decide; simpl; try done. destruct Hv. done.
Qed.

Lemma index_step_valid idx r :
  valid r →
  index_step idx r =
    let t := donetime_of r in
    match od_get (group_key r) idx with
    | None =>
        od_set (group_key r)
          (mk_group (field r "shiftDate") (field r "shift") (field r "station") t) idx
    | Some g =>
        match t with
        | Some tv =>
            if match last_time g with None => true | Some l => time_ltb l tv end
            then od_set (group_key r) (set_last_time g t) idx
            else idx
        | None => idx
        end
    end.
Proof.
  unfold valid, index_step. intros (?&?&?&?).
  repeat (case_bool_decide; [done|]). done.
Qed.

Lemma elem_of_snoc {A} (l : list A) (x y : A) : x ∈ l ++ [y] ↔ x ∈ l ∨ x = y.
Proof. by rewrite elem_of_app, list_elem_of_singleton. Qed.

Lemma is_latest_snoc pre r k lt :
  group_key r ≠ k ∨ donetime_of r = None →
  is_latest pre k lt → is_latest (pre ++ [r]) k lt.
Proof.
  intros Hr. destruct lt as [t|]; simpl.
  - intros [(r0 & Hin & Hk & Ht) Hmax]. split.
    + exists r0. rewrite elem_of_app. auto.
    + intros r' t' [Hin'| ->]%elem_of_snoc Hk' Ht'; [eauto|].
      destruct Hr; congruence.
  - intros Hnone r' [Hin'| ->]%elem_of_snoc Hk'; [eauto|].
    destruct Hr; congruence.
Qed.

(** A skipped record that shares the key of a record that is not skipped
    has an empty donetime, which does not parse. *)
Lemma skipped_same_key r r0 :
  ¬ valid r → valid r0 → group_key r = group_key r0 → donetime_of r = None.
Proof.
  unfold valid, group_key, donetime_of. intros Hr (?&?&?&?) Hk. simplify_eq.
  destruct (decide (field r "donetime" = [])) as [->|]; [done|].
  destruct Hr. split_and!; congruence.
Qed.

Lemma index_inv_nil : index_inv [] [].
Proof.
  split; [constructor | done | by intros r ?%elem_of_nil].
Qed.

Lemma index_inv_skip pre idx r :
  ¬ valid r → index_inv pre idx → index_inv (pre ++ [r]) idx.
Proof.
  intros Hr [Hnd Hg Hc]. split; [done|..].
  - intros k g Hk. destruct (Hg k g Hk) as (Hkey & (r0 & Hin & Hv & Hk0) & Hl).
    split_and!; [done | exists r0; rewrite elem_of_app; auto |].
    apply is_latest_snoc; [|done].
    destruct (decide (group_key r = k)) as [<-|]; [right|by left].
    by apply (skipped_same_key r r0).
  - intros r' [Hin| ->]%elem_of_snoc Hv; [auto | done].
Qed.

Lemma index_inv_step pre idx r :
  index_inv pre idx → index_inv (pre ++ [r]) (index_step idx r).
Proof.
  intros Hinv. destruct (decide (valid r)) as [Hv|Hv];
    [|rewrite index_step_skip by done; by apply index_inv_skip].
  rewrite index_step_valid by done. destruct Hinv as [Hnd Hg Hc]. simpl.
  assert (Hkeep : ∀ k g, od_get k idx = Some g → group_key r ≠ k →
            (shiftDate g, shift g, station g) = k
            ∧ (∃ r0, r0 ∈ pre ++ [r] ∧ valid r0 ∧ group_key r0 = k)
            ∧ is_latest (pre ++ [r]) k (last_time g)).
  { intros k g Hk Hne. destruct (Hg k g Hk) as (Hkey & (r0 & Hin & Hv0 & Hk0) & Hl).
    split_and!; [done | exists r0; rewrite elem_of_app; auto |].
    apply is_latest_snoc; auto. }
  assert (Hself : ∃ r0, r0 ∈ pre ++ [r] ∧ valid r0 ∧ group_key r0 = group_key r).
  { exists r. rewrite elem_of_app, list_elem_of_singleton. auto. }
  destruct (od_get (group_key r) idx) as [g|] eqn:Eg.
  - (* the key exists *)
    destruct (Hg _ _ Eg) as (Hkey & _ & Hl).
    destruct (donetime_of r) as [tv|] eqn:Et.
    + destruct (match last_time g with None => true | Some l => time_ltb l tv end) eqn:Ec.
      * (* the new time is later *)
        split; [by apply od_set_NoDup|..].
        -- intros k g'. rewrite od_get_set. case_decide as Hk; [|eauto].
           intros ?; simplify_eq. split_and!; [done..|]. simpl. split.
           ++ exists r. rewrite elem_of_app, list_elem_of_singleton. auto.
           ++ intros r' t' [Hin| ->]%elem_of_snoc Hk' Ht'.
              ** destruct (last_time g) as [l|]; simpl in Hl.
                 --- destruct Hl as [_ Hmax]. eauto using time_ltb_le_lt.
                 --- rewrite (Hl r' Hin Hk') in Ht'. done.
              ** simplify_eq. apply time_ltb_irrefl.
        -- intros r' [Hin| ->]%elem_of_snoc Hv';
             rewrite od_get_set; case_decide; eauto.
      * (* the old time stays *)
        destruct (last_time g) as [l|] eqn:El; [|done].
        split; [done|..].
        -- intros k g' Hk. destruct (decide (group_key r = k)) as [<-|]; [|eauto].
           simplify_eq. split_and!; [done..|]. rewrite El. simpl in *.
           destruct Hl as [(r0 & Hin & Hk0 & Ht0) Hmax]. split.
           ++ exists r0. rewrite elem_of_app. auto.
           ++ intros r' t' [Hin'| ->]%elem_of_snoc Hk' Ht';
                [eauto | by simplify_eq].
        -- intros r' [Hin| ->]%elem_of_snoc Hv'; eauto.
    + (* the donetime does not parse *)
      split; [done|..].
      * intros k g' Hk. destruct (decide (group_key r = k)) as [<-|]; [|eauto].
        simplify_eq. split_and!; [done..|]. apply is_latest_snoc; auto.
      * intros r' [Hin| ->]%elem_of_snoc Hv'; eauto.
  - (* a new key *)
    assert (Hfresh : ∀ r', r' ∈ pre → group_key r' = group_key r → donetime_of r' = None).
    { intros r' Hin Hk. destruct (decide (valid r')) as [Hv'|Hv'].
      - apply Hc in Hv'; [|done]. rewrite Hk, Eg in Hv'. by destruct Hv'.
      - by apply (skipped_same_key r' r). }
    split; [by apply od_set_NoDup|..].
    + intros k g'. rewrite od_get_set. case_decide as Hk; [|eauto].
      intros ?; simplify_eq. split_and!; [done..|]. simpl.
      destruct (donetime_of r) as [tv|] eqn:Et; simpl.
      * split; [exists r; rewrite elem_of_app, list_elem_of_singleton; auto|].
        intros r' t' [Hin| ->]%elem_of_snoc Hk' Ht'.
        -- rewrite (Hfresh r' Hin Hk') in Ht'. done.
        -- simplify_eq. apply time_ltb_irrefl.
      * intros r' [Hin| ->]%elem_of_snoc Hk'; auto.
    + intros r' [Hin| ->]%elem_of_snoc Hv';
        rewrite od_get_set; case_decide; by eauto.
Qed.

Lemma index_inv_foldl rows : index_inv rows (foldl index_step [] rows).
Proof.
  induction rows as [|r rows IH] using rev_ind; [apply index_inv_nil|].
  rewrite foldl_app. simpl. by apply index_inv_step.
Qed.

Lemma index_foldl_filter rows idx :
  foldl index_step idx (filter valid rows) = foldl index_step idx rows.
Proof.
  revert idx. induction rows as [|r rows IH]; intros idx; [done|].
  rewrite filter_cons. case_decide as Hv; simpl; [done|].
  by rewrite index_step_skip.
Qed.

Lemma elem_of_build_shift_index rows g :
  g ∈ build_shift_index rows
  ↔ ∃ k, od_get k (foldl index_step [] rows) = Some g.
Proof.
  unfold build_shift_index. rewrite sorted_perm.
  apply od_values_elem_of, index_inv_foldl.
Qed.

Lemma index_group_keys rows :
  key_of_group <$> od_values (foldl index_step [] rows)
  = od_keys (foldl index_step [] rows).
Proof.
  destruct (index_inv_foldl rows) as [Hnd Hg _].
  unfold od_values, od_keys. rewrite <-list_fmap_compose.
  apply list_fmap_ext. intros i [k g] Hin%list_elem_of_lookup_2. simpl.
  by apply (od_elem_of_get _ _ _ Hnd), Hg in Hin as [? _].
Qed.

(** C3. A record whose trimmed shiftDate, shift, station or donetime is
    empty is excluded: dropping such records from the batch changes nothing,
    and every returned group has the key of a record that is not excluded.
    Each key of such a record has exactly one group, and the group's
    [last_time] is the latest donetime that parses among all records of the
    batch with that key ([None] when none parses): an unparsable donetime
    never replaces a time, a later time always replaces an earlier one.
    Donetimes ["08:00"] and ["09:30"] under one key give 09:30. *)
Theorem build_shift_index_groups (rows : list record) :
  build_shift_index (filter valid rows) = build_shift_index rows
  ∧ (∀ g, g ∈ build_shift_index rows →
       (∃ r, r ∈ rows ∧ valid r ∧ group_key r = key_of_group g)
       ∧ match last_time g with
         | None =>
             ∀ r, r ∈ rows → group_key r = key_of_group g → donetime_of r = None
         | Some t =>
             (∃ r, r ∈ rows ∧ group_key r = key_of_group g ∧ donetime_of r = Some t)
             ∧ ∀ r t', r ∈ rows → group_key r = key_of_group g →
                       donetime_of r = Some t' → time_ltb t t' = false
         end)
  ∧ (∀ r, r ∈ rows → valid r →
       ∃ g, g ∈ build_shift_index rows ∧ key_of_group g = group_key r)
  ∧ NoDup (key_of_group <$> build_shift_index rows)
  ∧ build_shift_index [obj_08_00; obj_09_30]
    = [mk_group (py "2024-01-01") (py "A") (py "Line1") (Some (mk_time 9 30))]
  ∧ build_shift_index [obj_09_30; obj_no_station; obj_bad_time; obj_08_00]
    = [mk_group (py "2024-01-01") (py "A") (py "Line1") (Some (mk_time 9 30))].
Proof.
  pose proof (index_inv_foldl rows) as [Hnd Hg Hc].
  split_and!.
  - unfold build_shift_index. by rewrite index_foldl_filter.
  - intros g [k Hk]%elem_of_build_shift_index.
    destruct (Hg k g Hk) as (<- & Hex & Hl). done.
  - intros r Hin Hv. destruct (Hc r Hin Hv) as [g Hk]. exists g. split.
    + apply elem_of_build_shift_index. eauto.
    + by destruct (Hg _ _ Hk) as [? _].
  - unfold build_shift_index. rewrite sorted_perm. by rewrite index_group_keys.
  - vm_compute. reflexivity.
  - vm_compute. reflexivity.
Qed.

Lemma build_shift_index_groups_witness :
  ∃ g, g ∈ build_shift_index [obj_08_00; obj_09_30]
       ∧ key_of_group g = group_key obj_09_30.
Proof.
  apply (build_shift_index_groups [obj_08_00; obj_09_30]).
  - apply list_elem_of_further, list_elem_of_here.
  - vm_compute. repeat split; discriminate.
Defined.

Lemma index_last_time_min rows g :
  g ∈ build_shift_index rows → time_ltb (sort_key g).2 time_min = false.
Proof.
  intros [k Hk]%elem_of_build_shift_index.
  destruct (index_inv_foldl rows) as [_ Hg _].
  destruct (Hg k g Hk) as (_ & _ & Hl). unfold sort_key; simpl.
  destruct (last_time g) as [t|]; simpl in *; [|done].
  destruct Hl as [(r & _ & _ & Ht) _]. apply parse_hhmm_str_range in Ht.
  destruct t. unfold time_ltb; simpl in *. bool_to_Z. lia.
Qed.

Lemma index_sorted_desc rows :
  StronglySorted (fun a b => pair_ltb (sort_key a) (sort_key b) = false)
                 (build_shift_index rows).
Proof.
  unfold build_shift_index.
  eapply StronglySorted_weaken; [|apply (sorted_sorted pair_ltb sort_key true)].
  - done.
  - unfold before. intros a b. apply pair_ltb_asym.
  - unfold before. intros a b c. apply pair_ltb_negtrans.
Qed.

(** C4. The list [build_shift_index] returns is sorted descending by the
    pair (shiftDate parsed as a date, last_time), where a shiftDate that
    does not parse counts as the earliest date and an absent last_time as
    the earliest time of day (no group's date or time is before them).
    Hence a group with a later date stands before every group with an
    earlier date, whatever their times, and within one date a group with a
    later last_time stands before one with an earlier last_time. *)
Theorem build_shift_index_sorted (rows : list record) :
  StronglySorted (fun a b => pair_ltb (sort_key a) (sort_key b) = false)
                 (build_shift_index rows)
  ∧ (∀ g, sort_key g
          = (match strptime_Ymd (shiftDate g) with
             | Returns d => d
             | Raises _ => mk_date 1 1 1
             end,
             match last_time g with Some t => t | None => mk_time 0 0 end))
  ∧ (∀ g, g ∈ (build_shift_index rows) → date_ltb (sort_key g).1 (mk_date 1 1 1) = false
                       ∧ time_ltb (sort_key g).2 (mk_time 0 0) = false)
  ∧ (∀ i j g g', (build_shift_index rows) !! i = Some g → (build_shift_index rows) !! j = Some g' →
       date_ltb (sort_key g').1 (sort_key g).1 = true → (i < j)%nat)
  ∧ (∀ i j g g', (build_shift_index rows) !! i = Some g → (build_shift_index rows) !! j = Some g' →
       (sort_key g').1 = (sort_key g).1 →
       time_ltb (sort_key g').2 (sort_key g).2 = true → (i < j)%nat)
  ∧ key_of_group <$> build_shift_index [obj_no_date; obj_day1_late; obj_08_00; obj_day2_early]
    = [ (py "2024-01-02", py "A", py "Line1");
        (py "2024-01-01", py "B", py "Line1");
        (py "2024-01-01", py "A", py "Line1");
        (py "yesterday", py "A", py "Line1") ].
Proof.
  assert (Hlt : ∀ i j g g',
            build_shift_index rows !! i = Some g →
            build_shift_index rows !! j = Some g' →
            pair_ltb (sort_key g') (sort_key g) = true → (i < j)%nat).
  { intros i j g g' Hi Hj Hk.
    eapply StronglySorted_lookup_lt;
      [apply index_sorted_desc | exact Hi | exact Hj | |].
    - simpl. congruence.
    - intros ->. rewrite pair_ltb_irrefl in Hk. done. }
  split_and!.
  - apply index_sorted_desc.
  - done.
  - intros g Hin. split; [apply sort_key_date_min | by eapply index_last_time_min].
  - intros i j g g' Hi Hj Hd. eauto using pair_ltb_date.
  - intros i j g g' Hi Hj Hd Ht. eauto using pair_ltb_time.
  - vm_compute. reflexivity.
Qed.

Lemma build_shift_index_sorted_witness :
  ∃ g g',
    build_shift_index [obj_day1_late; obj_day2_early] !! 0%nat = Some g
    ∧ build_shift_index [obj_day1_late; obj_day2_early] !! 1%nat = Some g'
    ∧ date_ltb (sort_key g').1 (sort_key g).1 = true
    ∧ (0 < 1)%nat.
Proof.
  exists (mk_group (py "2024-01-02") (py "A") (py "Line1") (Some (mk_time 0 10))),
         (mk_group (py "2024-01-01") (py "B") (py "Line1") (Some (mk_time 23 50))).
  destruct (build_shift_index_sorted [obj_day1_late; obj_day2_early])
    as (_ & _ & _ & Hdate & _).
  split; [vm_compute; reflexivity|].
  split; [vm_compute; reflexivity|].
  split; [vm_compute; reflexivity|].
  apply (Hdate 0%nat 1%nat
           (mk_group (py "2024-01-02") (py "A") (py "Line1") (Some (mk_time 0 10)))
           (mk_group (py "2024-01-01") (py "B") (py "Line1") (Some (mk_time 23 50))));
    vm_compute; reflexivity.
Defined.

(** ** Report Builder *)

Section odict_more.
Context {K V : Type} `{EqDecision K}.
Implicit Types (k : K) (v : V) (d : odict K V).

Lemma od_set_set k v v' d : od_set k v (od_set k v' d) = od_set k v d.
Proof.
  induction d as [|[k0 v0] d IH]; simpl; repeat (case_decide; simpl);
    congruence.
Qed.

Lemma od_set_setdefault k v v0 d : od_set k v (od_setdefault k v0 d) = od_set k v d.
Proof.
  unfold od_setdefault. destruct (od_mem k d); [done | apply od_set_set].
Qed.

Lemma od_mem_keys {V'} k d (d' : odict K V') :
  od_keys d = od_keys d' → od_mem k d = od_mem k d'.
Proof.
  intros Hk. apply eq_true_iff_eq. by rewrite !od_mem_true, Hk.
Qed.

Lemma od_mem_false k d : od_mem k d = false ↔ od_get k d = None.
Proof. unfold od_mem. destruct (od_get k d); split; done. Qed.
End odict_more.

Lemma od_get_setdefault_nil {K V} `{EqDecision K} (k : K) (d : odict K (list V)) :
  default [] (od_get k (od_setdefault k [] d)) = default [] (od_get k d).
Proof.
  unfold od_setdefault. destruct (od_mem k d) eqn:E; [done|].
  apply od_mem_false in E. by rewrite od_get_set_eq, E.
Qed.

Lemma report_step_skip A st r : ¬ kept A r → report_step A st r = st.
Proof.
  unfold kept, report_step. intros Hk. destruct st as [s m].
  repeat case_bool_decide; simpl; try done. destruct Hk. done.
Qed.

Lemma report_step_kept A (s : submissions_t) (m : meta_t) r :
  kept A r →
  report_step A (s, m) r =
    (od_set (field r "donetime")
       (od_set (field r "itemname") (normalize_value (get r "itemresult"))
          (default [] (od_get (field r "donetime") s))) s,
     if od_mem (field r "donetime") m then m
     else od_set (field r "donetime") (header_of r) m).
Proof.
  unfold kept, report_step. intros [Hd Hi].
  rewrite bool_decide_eq_false_2, bool_decide_eq_true_2 by done. simpl.
  rewrite od_get_setdefault_nil, od_set_setdefault.
  by destruct (od_mem (field r "donetime") m).
Qed.

Lemma scan_foldl_filter A l st :
  foldl (report_step A) st (filter (kept A) l) = foldl (report_step A) st l.
Proof.
  revert st. induction l as [|r l IH]; intros st; [done|].
  rewrite filter_cons. case_decide; simpl; [done|].
  by rewrite report_step_skip.
Qed.

(** [submissions] and [meta] always hold the same donetimes, in the same
    order. *)
Lemma scan_foldl_keys A l (s : submissions_t) (m : meta_t) :
  od_keys s = od_keys m →
  od_keys (foldl (report_step A) (s, m) l).1
  = od_keys (foldl (report_step A) (s, m) l).2.
Proof.
  revert s m. induction l as [|r l IH]; intros s m Hk; [done|]. simpl.
  destruct (decide (kept A r)) as [Hr|Hr];
    [|rewrite report_step_skip by done; auto].
  rewrite report_step_kept by done. apply IH.
  rewrite od_keys_set, (od_mem_keys _ s m Hk).
  destruct (od_mem (field r "donetime") m) eqn:E; [done|].
  by rewrite od_keys_set, E, Hk.
Qed.

Lemma scan_foldl_nodup A l (s : submissions_t) (m : meta_t) :
  NoDup (od_keys s) → NoDup (od_keys (foldl (report_step A) (s, m) l).1).
Proof.
  revert s m. induction l as [|r l IH]; intros s m Hs; [done|]. simpl.
  destruct (decide (kept A r)) as [Hr|Hr];
    [|rewrite report_step_skip by done; auto].
  rewrite report_step_kept by done. by apply IH, od_set_NoDup.
Qed.

(** The donetimes of [submissions] are those of the records that are not
    skipped. *)
Lemma scan_foldl_elem_of A l (s : submissions_t) (m : meta_t) t :
  t ∈ od_keys (foldl (report_step A) (s, m) l).1
  ↔ t ∈ od_keys s ∨ ∃ r, r ∈ filter (kept A) l ∧ field r "donetime" = t.
Proof.
  revert s m. induction l as [|r l IH]; intros s m; simpl.
  - rewrite filter_nil. split; [auto|]. intros [?|(r & ?%elem_of_nil & _)]; done.
  - rewrite filter_cons. destruct (decide (kept A r)) as [Hr|Hr].
    + rewrite report_step_kept, IH by done. rewrite od_keys_set.
      setoid_rewrite elem_of_cons.
      destruct (od_mem (field r "donetime") s) eqn:E.
      * apply od_mem_true in E. split.
        -- intros [?|(r0 & ? & ?)]; eauto.
        -- intros [?|(r0 & [->|?] & <-)]; eauto.
      * rewrite elem_of_snoc. split.
        -- intros [[?|?]|(r0 & ? & ?)]; eauto.
        -- intros [?|(r0 & [->|?] & <-)]; eauto.
    + rewrite report_step_skip by done. apply IH.
Qed.


(** Last write wins: the value of an item at a donetime is that of the last
    record, among those not skipped, with this donetime and item name. *)
Lemma scan_foldl_value A l (s : submissions_t) (m : meta_t) t item :
  od_get item (default [] (od_get t (foldl (report_step A) (s, m) l).1))
  = match last (filter (fun r => field r "donetime" = t ∧ field r "itemname" = item)
                       (filter (kept A) l)) with
    | Some r => Some (normalize_value (get r "itemresult"))
    | None => od_get item (default [] (od_get t s))
    end.
Proof.
  revert s m. induction l as [|r l IH]; intros s m; simpl; [done|].
  rewrite filter_cons. destruct (decide (kept A r)) as [Hr|Hr];
    [|rewrite report_step_skip by done; apply IH].
  rewrite report_step_kept, IH by done. rewrite filter_cons.
  rewrite od_get_set.
  destruct (decide (field r "donetime" = t)) as [Hd|Hd].
  - subst. simpl. rewrite od_get_set.
    destruct (decide (field r "itemname" = item)) as [Hi|Hi].
    + rewrite decide_True by done. rewrite last_cons. by destruct (last _).
    + rewrite decide_False by tauto. done.
  - rewrite decide_False by tauto. done.
Qed.

Section report_facts.
Context (items : list pystr) (table : gmap pystr pystr) (rows : list record)
        (sd sn st : pystr).

Local Abbreviation rep := (build_report_with items table rows sd sn st).
Local Abbreviation subm := (submissions_of items rows sd sn st).
Local Abbreviation meta := (meta_of items rows sd sn st).
Local Abbreviation surv := (survivors items rows sd sn st).

Lemma report_columns :
  columns rep = sort_donetime_list_with table (od_keys subm) sn.
Proof.
  unfold rep, subm, build_report_with, submissions_of.
  by destruct (scan _ _).
Qed.

Lemma report_matrix :
  matrix rep =
    (fun item =>
       mk_row item
         ((fun t => default [] (od_get item (default [] (od_get t subm))))
            <$> columns rep)) <$> items.
Proof.
  unfold rep, subm, build_report_with, submissions_of.
  by destruct (scan _ _).
Qed.

Lemma report_header :
  header rep =
    match last (columns rep) with
    | Some t => default empty_header (od_get t meta)
    | None => empty_header
    end.
Proof.
  unfold rep, meta, build_report_with, meta_of.
  by destruct (scan _ _).
Qed.

Lemma report_columns_perm : columns rep ≡ₚ od_keys subm.
Proof. rewrite report_columns. apply sorted_perm. Qed.

Lemma report_keys : od_keys subm = od_keys meta.
Proof. by apply scan_foldl_keys. Qed.

Lemma report_columns_elem_of t :
  t ∈ columns rep ↔ ∃ r, r ∈ surv ∧ field r "donetime" = t.
Proof.
  rewrite report_columns_perm. unfold subm, submissions_of, scan.
  rewrite scan_foldl_elem_of. split; [|by right].
  intros [?%elem_of_nil|?]; done.
Qed.

Lemma report_columns_nodup : NoDup (columns rep).
Proof.
  rewrite report_columns_perm. apply scan_foldl_nodup. constructor.
Qed.


Lemma report_meta_is_Some t : t ∈ columns rep → is_Some (od_get t meta).
Proof.
  rewrite report_columns_perm, report_keys. by rewrite od_get_is_Some.
Qed.

Lemma report_value t item :
  default [] (od_get item (default [] (od_get t subm)))
  = match last (filter (fun r => field r "donetime" = t ∧ field r "itemname" = item)
                       surv) with
    | Some r => normalize_value (get r "itemresult")
    | None => []
    end.
Proof.
  unfold subm, submissions_of, scan. rewrite scan_foldl_value.
  fold (survivors items rows sd sn st). by destruct (last _).
Qed.

Lemma report_no_survivors :
  surv = [] →
  columns rep = [] ∧ Forall (fun row => values row = []) (matrix rep)
  ∧ label <$> matrix rep = items ∧ header rep = empty_header.
Proof.
  intros Hs.
  assert (Hc : columns rep = []).
  { rewrite report_columns. unfold subm, submissions_of, scan.
    rewrite <-scan_foldl_filter. fold (survivors items rows sd sn st).
    fold surv. by rewrite Hs. }
  rewrite report_header, report_matrix, Hc. split_and!; [done| |  |done].
  - apply Forall_fmap, Forall_forall. done.
  - rewrite <-list_fmap_compose. apply list_fmap_id.
Qed.

End report_facts.

(** C1. For all records, selectors and item catalogs, the matrix has one
    row per catalog item, in catalog order, and every row has exactly
    [len(columns)] values: the value of item [i] at column [j] is the
    normalized result of the last record of the selected group, among those
    not skipped, with that donetime and item name, and the empty string when
    there is no such record. *)
Theorem build_report_matrix (items : list pystr) (table : gmap pystr pystr)
    (rows : list record) (sd sn st : pystr) :
  let rep := build_report_with items table rows sd sn st in
  label <$> matrix rep = items
  ∧ length (matrix rep) = length items
  ∧ Forall (fun row => length (values row) = length (columns rep)) (matrix rep)
  ∧ (∀ i j item t, items !! i = Some item → columns rep !! j = Some t →
       ∃ row, matrix rep !! i = Some row ∧ label row = item
         ∧ values row !! j =
             Some match last (filter (fun r => field r "donetime" = t
                                               ∧ field r "itemname" = item)
                                     (survivors items rows sd sn st)) with
                  | Some r => normalize_value (get r "itemresult")
                  | None => []
                  end)
  ∧ (∀ i j item t, items !! i = Some item → columns rep !! j = Some t →
       (∀ r, r ∈ survivors items rows sd sn st →
             ¬ (field r "donetime" = t ∧ field r "itemname" = item)) →
       ∃ row, matrix rep !! i = Some row ∧ values row !! j = Some [])
  ∧ columns (build_report scenario (py "2024-01-01") (py "A") (py "S1"))
    = [py "06:05"; py "07:10"]
  ∧ matrix (build_report scenario (py "2024-01-01") (py "A") (py "S1")) !! 0%nat
    = Some (mk_row (py item1) [py "72.5"; []]).
Proof.
  intros rep.
  assert (Hcell : ∀ i j item t, items !! i = Some item → columns rep !! j = Some t →
            ∃ row, matrix rep !! i = Some row ∧ label row = item
              ∧ values row !! j =
                  Some match last (filter (fun r => field r "donetime" = t
                                                    ∧ field r "itemname" = item)
                                          (survivors items rows sd sn st)) with
                       | Some r => normalize_value (get r "itemresult")
                       | None => []
                       end).
  { intros i j item t Hi Hj. unfold rep. rewrite report_matrix.
    rewrite list_lookup_fmap, Hi. simpl. eexists. split_and!; [done..|]. simpl.
    fold rep. by rewrite list_lookup_fmap, Hj, <-report_value. }
  split_and!.
  - unfold rep. rewrite report_matrix, <-list_fmap_compose. apply list_fmap_id.
  - unfold rep. by rewrite report_matrix, length_fmap.
  - unfold rep. rewrite report_matrix. apply Forall_fmap, Forall_forall.
    intros item _. simpl. by rewrite length_fmap.
  - exact Hcell.
  - intros i j item t Hi Hj Hnone.
    destruct (Hcell i j item t Hi Hj) as (row & Hrow & _ & Hval).
    exists row. split; [done|]. rewrite Hval.
    destruct (last _) as [r|] eqn:El; [|done].
    apply last_Some_elem_of, list_elem_of_filter in El as [Hr Hin].
    by destruct (Hnone r Hin).
  - vm_compute. reflexivity.
  - vm_compute. reflexivity.
Qed.

Lemma build_report_matrix_witness :
  ∃ row, matrix (build_report scenario (py "2024-01-01") (py "A") (py "S1")) !! 1%nat
         = Some row
         ∧ values row !! 0%nat = Some [].
Proof.
  destruct (build_report_matrix ORDERED_ITEMS SHIFT_START scenario
              (py "2024-01-01") (py "A") (py "S1")) as (_ & _ & _ & _ & Hempty & _).
  apply (Hempty 1%nat 0%nat (py item2) (py "06:05"));
    [vm_compute; reflexivity..|].
  apply Forall_forall.
  match goal with |- ?G => apply (bool_decide_unpack G) end.
  vm_compute. exact I.
Defined.




(** C8. When no record survives the filtering for the selector, in
    particular when no record of the batch has this combination of
    shiftDate, shift and station, [build_report] returns normally, with
    [columns] empty, every matrix row (one per catalog item) with an empty
    value list, and the all-empty header. *)
Theorem build_report_no_data (items : list pystr) (table : gmap pystr pystr)
    (rows : list record) (sd sn st : pystr) :
  let rep := build_report_with items table rows sd sn st in
  (survivors items rows sd sn st = [] →
     columns rep = [] ∧ Forall (fun row => values row = []) (matrix rep)
     ∧ label <$> matrix rep = items ∧ header rep = mk_header [] [] [])
  ∧ ((∀ r, r ∈ rows → ¬ selected sd sn st r) →
     columns rep = [] ∧ Forall (fun row => values row = []) (matrix rep)
     ∧ label <$> matrix rep = items ∧ header rep = mk_header [] [] [])
  ∧ columns (build_report scenario (py "2024-01-01") (py "B") (py "S1")) = []
  ∧ values <$> matrix (build_report scenario (py "2024-01-01") (py "B") (py "S1"))
    = replicate 10 [].
Proof.
  intros rep. split_and!.
  - apply report_no_survivors.
  - intros Hnone. apply report_no_survivors.
    unfold survivors. replace (filter (selected sd sn st) rows) with (@nil record); [done|].
    symmetry. induction rows as [|r l IH]; [done|].
    rewrite filter_cons_False by (apply Hnone; left).
    apply IH. intros r' Hin. apply Hnone. by right.
  - vm_compute. reflexivity.
  - vm_compute. reflexivity.
Qed.

Lemma build_report_no_data_witness :
  columns (build_report scenario (py "2024-01-01") (py "B") (py "S1")) = []
  ∧ Forall (fun row => values row = [])
           (matrix (build_report scenario (py "2024-01-01") (py "B") (py "S1")))
  ∧ label <$> matrix (build_report scenario (py "2024-01-01") (py "B") (py "S1"))
    = ORDERED_ITEMS
  ∧ header (build_report scenario (py "2024-01-01") (py "B") (py "S1"))
    = mk_header [] [] [].
Proof.
  destruct (build_report_no_data ORDERED_ITEMS SHIFT_START scenario
              (py "2024-01-01") (py "B") (py "S1")) as [Hnone _].
  apply Hnone. vm_compute. reflexivity.
Defined.

(** C9. In [build_report], [submissions] and [meta] have the same donetimes
    as keys, so every column has a recorded header triple. Whenever
    [columns] is non-empty, the lookup of its last element in [meta] finds
    an entry, and the returned header is that entry, not the fallback. *)
Theorem build_report_meta_keys (items : list pystr) (table : gmap pystr pystr)
    (rows : list record) (sd sn st : pystr) :
  let rep := build_report_with items table rows sd sn st in
  od_keys (submissions_of items rows sd sn st) = od_keys (meta_of items rows sd sn st)
  ∧ (∀ t, t ∈ columns rep ↔ t ∈ od_keys (submissions_of items rows sd sn st))
  ∧ (∀ t, t ∈ columns rep → is_Some (od_get t (meta_of items rows sd sn st)))
  ∧ (columns rep ≠ [] →
     ∃ t h, last (columns rep) = Some t
            ∧ od_get t (meta_of items rows sd sn st) = Some h
            ∧ header rep = h).
Proof.
  intros rep. split_and!.
  - apply report_keys.
  - intros t. unfold rep. by rewrite report_columns_perm.
  - intros t. apply report_meta_is_Some.
  - intros Hne. destruct (last (columns rep)) as [t|] eqn:El;
      [|by apply last_None in El].
    destruct (report_meta_is_Some items table rows sd sn st t) as [h Hh];
      [by eapply last_Some_elem_of|].
    exists t, h. split_and!; [done..|].
    unfold rep. rewrite report_header. fold rep. by rewrite El, Hh.
Qed.

Lemma build_report_meta_keys_witness :
  ∃ t h, last (columns (build_report scenario (py "2024-01-01") (py "A") (py "S1")))
         = Some t
         ∧ od_get t (meta_of ORDERED_ITEMS scenario (py "2024-01-01") (py "A") (py "S1"))
           = Some h
         ∧ header (build_report scenario (py "2024-01-01") (py "A") (py "S1")) = h.
Proof.
  apply (build_report_meta_keys ORDERED_ITEMS SHIFT_START scenario
           (py "2024-01-01") (py "A") (py "S1")).
  vm_compute. discriminate.
Defined.

(** * Further properties *)

(** ** Trimming *)

Lemma lstrip_head (s : pystr) (c : N) : head (lstrip s) = Some c → isspace c = false.
Proof.
  induction s as [|a s IH]; simpl; [done|].
  destruct (isspace a) eqn:E; [done|]. simpl. by intros [= <-].
Qed.

Lemma lstrip_fixed (s : pystr) :
  (∀ c, head s = Some c → isspace c = false) → lstrip s = s.
Proof.
  destruct s as [|a s]; simpl; [done|]. intros H. by rewrite (H a).
Qed.

Lemma lstrip_suffix (s : pystr) : ∃ w, s = w ++ lstrip s ∧ Forall (fun c => isspace c = true) w.
Proof.
  induction s as [|a s (w & Hw & Hs)]; simpl; [by exists []|].
  destruct (isspace a) eqn:E.
  - exists (a :: w). split; [simpl; congruence | by constructor].
  - by exists [].
Qed.

Lemma lstrip_spaces_app (w s : pystr) :
  Forall (fun c => isspace c = true) w → lstrip (w ++ s) = lstrip s.
Proof. induction 1 as [|a w Ha _ IH]; simpl; [done|]. by rewrite Ha. Qed.

Lemma lstrip_app_spaces (s w : pystr) :
  Forall (fun c => isspace c = true) w →
  lstrip (s ++ w) = if decide (lstrip s = []) then [] else lstrip s ++ w.
Proof.
  intros Hw. induction s as [|a s IH]; simpl.
  - rewrite <-(app_nil_r w) at 1. by rewrite lstrip_spaces_app.
  - destruct (isspace a); [done|]. by rewrite decide_False.
Qed.

Lemma lstrip_last (s : pystr) (c : N) :
  lstrip s ≠ [] → last (lstrip s) = last s.
Proof.
  destruct (lstrip_suffix s) as (w & Hw & _). intros Hne.
  rewrite Hw at 2. rewrite last_app. by destruct (last (lstrip s)) eqn:E; [|apply last_None in E].
Qed.

Lemma rstrip_last (s : pystr) (c : N) : last (rstrip s) = Some c → isspace c = false.
Proof.
  unfold rstrip. rewrite last_reverse. apply lstrip_head.
Qed.

Lemma rstrip_fixed (s : pystr) :
  (∀ c, last s = Some c → isspace c = false) → rstrip s = s.
Proof.
  intros H. unfold rstrip. rewrite lstrip_fixed; [apply reverse_involutive|].
  intros c. rewrite head_reverse. apply H.
Qed.

Lemma rstrip_prefix (s : pystr) : ∃ w, s = rstrip s ++ w ∧ Forall (fun c => isspace c = true) w.
Proof.
  destruct (lstrip_suffix (reverse s)) as (w & Hw & Hs).
  exists (reverse w). split; [|by apply Forall_reverse].
  unfold rstrip. rewrite <-reverse_app, <-Hw. by rewrite reverse_involutive.
Qed.

Lemma rstrip_app_spaces (s w : pystr) :
  Forall (fun c => isspace c = true) w → rstrip (s ++ w) = rstrip s.
Proof.
  intros Hw. unfold rstrip. rewrite reverse_app, lstrip_spaces_app; [done|].
  by apply Forall_reverse.
Qed.

Lemma rstrip_head (s : pystr) : rstrip s ≠ [] → head (rstrip s) = head s.
Proof.
  destruct (rstrip_prefix s) as (w & Hw & _). intros Hne.
  rewrite Hw at 2. destruct (rstrip s); [done|]. done.
Qed.

Lemma strip_head (s : pystr) (c : N) : head (strip s) = Some c → isspace c = false.
Proof.
  unfold strip. intros H.
  assert (rstrip (lstrip s) ≠ []) as Hne by (intros E; by rewrite E in H).
  rewrite rstrip_head in H by done. by apply lstrip_head in H.
Qed.

Lemma strip_last (s : pystr) (c : N) : last (strip s) = Some c → isspace c = false.
Proof. apply rstrip_last. Qed.

Lemma strip_fixed (s : pystr) :
  (∀ c, head s = Some c → isspace c = false) →
  (∀ c, last s = Some c → isspace c = false) → strip s = s.
Proof.
  intros Hh Hl. unfold strip. rewrite lstrip_fixed by done. by apply rstrip_fixed.
Qed.

Lemma strip_idemp (s : pystr) : strip (strip s) = strip s.
Proof. apply strip_fixed; [apply strip_head | apply strip_last]. Qed.

Lemma strip_padding (w1 w2 s : pystr) :
  Forall (fun c => isspace c = true) w1 → Forall (fun c => isspace c = true) w2 →
  strip (w1 ++ s ++ w2) = strip s.
Proof.
  intros H1 H2. unfold strip. rewrite lstrip_spaces_app by done.
  rewrite lstrip_app_spaces by done. case_decide as E; [by rewrite E|].
  by apply rstrip_app_spaces.
Qed.

(** ** More on normalize_value *)

Lemma replace_isspace (c : N) :
  isspace (if (c =? comma)%N then period else c) = isspace c.
Proof. destruct (N.eqb_spec c comma) as [->|]; done. Qed.

Lemma strip_replace (s : pystr) :
  strip s = s → strip (replace comma period s) = replace comma period s.
Proof.
  intros Hs. apply strip_fixed; unfold replace.
  - destruct s as [|a s]; simpl; [done|]. intros c [= <-].
    rewrite replace_isspace. apply (strip_head (a :: s)). by rewrite Hs.
  - intros c. rewrite fmap_last. destruct (last s) as [a|] eqn:El; simpl; [|done].
    intros [= <-]. rewrite replace_isspace. apply (strip_last s). by rewrite Hs.
Qed.

Lemma replace_inv (s p : pystr) :
  replace comma period s = p → period ∉ p → s = p.
Proof.
  unfold replace. revert p. induction s as [|a s IH]; intros p; [done|].
  rewrite fmap_cons. intros <- Hp. apply not_elem_of_cons in Hp as [Ha Hp].
  destruct (N.eqb_spec a comma); [done|]. f_equal. by apply IH.
Qed.

Lemma replace_fixed (s : pystr) : comma ∉ s → replace comma period s = s.
Proof.
  unfold replace. induction s as [|a s IH]; [done|].
  intros [Ha Hs]%not_elem_of_cons. rewrite fmap_cons, IH by done.
  destruct (N.eqb_spec a comma); congruence.
Qed.

Lemma normalize_value_cases (v : value) :
  normalize_value v = []
  ∨ (normalize_value v = replace comma period (strip (str v))
     ∧ strip (str v) ∉ [py "-"; py "N/A"; py "n/a"]).
Proof.
  destruct v; [by left|..]; unfold normalize_value; case_bool_decide; auto.
Qed.

Lemma normalize_value_stripped (v : value) : strip (normalize_value v) = normalize_value v.
Proof.
  destruct (normalize_value_cases v) as [->|[-> _]]; [done|].
  apply strip_replace, strip_idemp.
Qed.

Lemma normalize_value_not_placeholder (v : value) :
  normalize_value v ∉ [py "-"; py "N/A"; py "n/a"].
Proof.
  destruct (normalize_value_cases v) as [->|[-> Hs]].
  - compute_done.
  - intros Hin. apply Hs. rewrite !elem_of_cons, elem_of_nil in Hin.
    rewrite !elem_of_cons.
    destruct Hin as [H|[H|[H|[]]]]; apply replace_inv in H; auto; compute_done.
Qed.

Lemma normalize_value_no_comma (v : value) : comma ∉ normalize_value v.
Proof.
  destruct (normalize_value_cases v) as [->|[-> _]];
    [apply not_elem_of_nil | apply replace_no_comma].
Qed.

Lemma normalize_value_fixed (v : value) :
  normalize_value (VStr (normalize_value v)) = normalize_value v.
Proof.
  unfold normalize_value at 1. simpl. rewrite normalize_value_stripped.
  rewrite bool_decide_eq_false_2 by apply normalize_value_not_placeholder.
  apply replace_fixed, normalize_value_no_comma.
Qed.

(** Normalizing an already normalized value changes nothing: the result
    of [normalize_value] is trimmed, is none of the placeholders ["-"],
    ["N/A"], ["n/a"], and is no longer than the rendering of the raw
    value. *)
Theorem normalize_value_idempotent (v : value) :
  normalize_value (VStr (normalize_value v)) = normalize_value v
  ∧ strip (normalize_value v) = normalize_value v
  ∧ (normalize_value v ∉ [py "-"; py "N/A"; py "n/a"])
  ∧ (length (normalize_value v) ≤ length (str v))%nat.
Proof.
  split_and!.
  - apply normalize_value_fixed.
  - apply normalize_value_stripped.
  - apply normalize_value_not_placeholder.
  - destruct (normalize_value_cases v) as [->|[-> _]]; [simpl; lia|].
    unfold replace. rewrite length_fmap. unfold strip.
    destruct (rstrip_prefix (lstrip (str v))) as (w & Hw & _).
    destruct (lstrip_suffix (str v)) as (w' & Hw' & _).
    rewrite Hw' at 2. rewrite Hw at 2. rewrite !length_app. lia.
Qed.

(** ** More on parse_hhmm and minutes *)

(** Whitespace around the text is ignored by [parse_hhmm]: padding a
    string on both sides with whitespace characters gives the same result. *)
Theorem parse_hhmm_padding (w1 w2 s : pystr) :
  Forall (fun c => isspace c = true) w1 →
  Forall (fun c => isspace c = true) w2 →
  parse_hhmm (VStr (w1 ++ s ++ w2)) = parse_hhmm (VStr s).
Proof.
  intros H1 H2. rewrite !parse_hhmm_str_spec. unfold parse_hhmm_str.
  by rewrite strip_padding.
Qed.

Lemma parse_hhmm_padding_witness :
  parse_hhmm (VStr (py " " ++ py "06:00" ++ [160%N; 10%N])) = parse_hhmm (VStr (py "06:00")).
Proof.
  apply parse_hhmm_padding; repeat constructor.
Defined.

(** On times that [parse_hhmm] returns, the comparison of [time]
    objects used by [build_shift_index] agrees with the comparison of
    [minutes], and two such times with the same [minutes] are equal. *)
Theorem minutes_order (s1 s2 : pystr) (t1 t2 : time) :
  parse_hhmm_str s1 = Some t1 → parse_hhmm_str s2 = Some t2 →
  time_ltb t1 t2 = (minutes t1 <? minutes t2)
  ∧ (minutes t1 = minutes t2 ↔ t1 = t2).
Proof.
  intros [??]%parse_hhmm_str_range [??]%parse_hhmm_str_range.
  destruct t1 as [h1 m1], t2 as [h2 m2]. unfold time_ltb, minutes in *; simpl in *.
  split.
  - apply eq_true_iff_eq. rewrite orb_true_iff, andb_true_iff, !Z.ltb_lt, Z.eqb_eq. lia.
  - split; [|by intros [= -> ->]]. intros. f_equal; lia.
Qed.

Lemma minutes_order_witness :
  time_ltb (mk_time 6 5) (mk_time 23 0) = (minutes (mk_time 6 5) <? minutes (mk_time 23 0))
  ∧ (minutes (mk_time 6 5) = minutes (mk_time 23 0) ↔ mk_time 6 5 = mk_time 23 0).
Proof.
  apply (minutes_order (py "6:5") (py "23:00")); reflexivity.
Defined.

(** A donetime that parses has the same time, and so the same sort key
    for every shift start, as its zero-padded ["HH:MM"] form. *)
Theorem parse_hhmm_canonical (s : pystr) (t : time) :
  parse_hhmm_str s = Some t →
  parse_hhmm_str (hhmm (hour t) (minute t)) = Some t
  ∧ ∀ start_m, key start_m (hhmm (hour t) (minute t)) = key start_m s.
Proof.
  intros Hs. pose proof (parse_hhmm_str_range _ _ Hs) as [??].
  assert (Hc : parse_hhmm_str (hhmm (hour t) (minute t)) = Some t).
  { rewrite parse_hhmm_str_hhmm by done. by destruct t. }
  split; [done|]. intros start_m. unfold key. by rewrite Hc, Hs.
Qed.

Lemma parse_hhmm_canonical_witness :
  parse_hhmm_str (hhmm 6 5) = Some (mk_time 6 5)
  ∧ ∀ start_m, key start_m (hhmm 6 5) = key start_m (py " 6:5").
Proof.
  apply (parse_hhmm_canonical (py " 6:5") (mk_time 6 5)). reflexivity.
Defined.

(** ** More on sorted *)

Section sorted_more.
Context {A K : Type} `{EqDecision K}.
Context (ltb : K → K → bool) (key : A → K) (reverse : bool).

Hypothesis before_asym : ∀ a b,
  before ltb reverse a b = true → before ltb reverse b a = false.

Lemma sorted_fixed l :
  StronglySorted (in_order ltb key reverse) l → sorted ltb key reverse l = l.
Proof.
  induction 1 as [|x l Hl IH Hx]; simpl; [done|]. rewrite IH.
  destruct Hx as [|y l' Hy _]; simpl; [done|]. by rewrite Hy.
Qed.

Lemma insert_sorted_filter_key k x l :
  filter (fun y => key y = k) (insert_sorted ltb key reverse x l)
  = filter (fun y => key y = k) (x :: l).
Proof.
  induction l as [|y l IH]; simpl; [done|].
  destruct (before ltb reverse (key y) (key x)) eqn:E; [|done].
  rewrite filter_cons, IH, !filter_cons.
  destruct (decide (key y = k)) as [Hy|]; [|done].
  destruct (decide (key x = k)) as [Hx|]; [|done].
  rewrite Hy, Hx in E. pose proof (before_asym _ _ E). congruence.
Qed.

Lemma sorted_filter_key k l :
  filter (fun y => key y = k) (sorted ltb key reverse l)
  = filter (fun y => key y = k) l.
Proof.
  induction l as [|x l IH]; simpl; [done|].
  by rewrite insert_sorted_filter_key, !filter_cons, IH.
Qed.
End sorted_more.

Lemma Z_before_asym (a b : Z) :
  before Z.ltb false a b = true → before Z.ltb false b a = false.
Proof. unfold before. intros ?%Z.ltb_lt. apply Z.ltb_ge. lia. Qed.

(** [sort_donetime_list] is stable: the donetimes that share a sort key
    keep the order they had in the input. *)
Theorem sort_donetime_list_stable (table : gmap pystr pystr) (times : list pystr)
    (shift_name : pystr) (k : Z) :
  filter (fun t => shift_relative_key t shift_name table = k)
         (sort_donetime_list_with table times shift_name)
  = filter (fun t => shift_relative_key t shift_name table = k) times.
Proof.
  unfold sort_donetime_list_with, shift_relative_key.
  apply (sorted_filter_key Z.ltb _ false Z_before_asym).
Qed.

(** Sorting an already sorted list of donetimes again returns it
    unchanged, and sorting keeps the number of elements. *)
Theorem sort_donetime_list_idempotent (table : gmap pystr pystr) (times : list pystr)
    (shift_name : pystr) :
  sort_donetime_list_with table (sort_donetime_list_with table times shift_name) shift_name
  = sort_donetime_list_with table times shift_name
  ∧ length (sort_donetime_list_with table times shift_name) = length times.
Proof.
  split.
  - unfold sort_donetime_list_with. apply sorted_fixed, sorted_sorted.
    + apply Z_before_asym.
    + unfold before. intros a b c ?%Z.ltb_ge ?%Z.ltb_ge. apply Z.ltb_ge. lia.
  - unfold sort_donetime_list_with. by rewrite sorted_perm.
Qed.

(** ** More on the Shift Indexer *)

Lemma time_ltb_antisym (a b : time) :
  time_ltb a b = false → time_ltb b a = false → a = b.
Proof.
  destruct a as [h1 m1], b as [h2 m2]. unfold time_ltb; simpl. intros H1 H2.
  bool_to_Z. f_equal; lia.
Qed.

Lemma is_latest_unique pre k a b : is_latest pre k a → is_latest pre k b → a = b.
Proof.
  destruct a as [t|], b as [t'|]; simpl; [| | |done].
  - intros [(r & Hr & Hk & Ht) Hmax] [(r' & Hr' & Hk' & Ht') Hmax'].
    f_equal. apply time_ltb_antisym; eauto.
  - intros [(r & Hr & Hk & Ht) _] Hnone. rewrite (Hnone r Hr Hk) in Ht. done.
  - intros Hnone [(r & Hr & Hk & Ht) _]. rewrite (Hnone r Hr Hk) in Ht. done.
Qed.

Lemma is_latest_ext pre pre' k a :
  (∀ r, r ∈ pre ↔ r ∈ pre') → is_latest pre k a → is_latest pre' k a.
Proof.
  intros Hext. destruct a as [t|]; simpl.
  - intros [(r & Hr & Hk & Ht) Hmax]. split.
    + exists r. by rewrite <-Hext.
    + intros r' t' Hr'%Hext. eauto.
  - intros Hnone r Hr%Hext. eauto.
Qed.

(** Membership in the index, read off the batch. *)
Lemma index_elem_of_iff rows g :
  g ∈ build_shift_index rows
  ↔ (∃ r, r ∈ rows ∧ valid r ∧ group_key r = key_of_group g)
    ∧ is_latest rows (key_of_group g) (last_time g).
Proof.
  destruct (index_inv_foldl rows) as [Hnd Hg Hc].
  rewrite elem_of_build_shift_index. split.
  - intros [k Hk]. destruct (Hg k g Hk) as (<- & Hex & Hl). done.
  - intros [(r & Hr & Hv & Hk) Hl]. exists (group_key r).
    destruct (Hc r Hr Hv) as [g0 Hg0]. rewrite Hg0. f_equal.
    destruct (Hg _ _ Hg0) as (Hkey & _ & Hl0).
    rewrite Hk in Hl0. pose proof (is_latest_unique _ _ _ _ Hl0 Hl) as Hlt.
    unfold key_of_group in Hk. destruct g0, g; simpl in *. congruence.
Qed.

Lemma index_nodup rows : NoDup (build_shift_index rows).
Proof.
  apply (NoDup_fmap_1 key_of_group).
  unfold build_shift_index. rewrite sorted_perm, index_group_keys.
  apply index_inv_foldl.
Qed.

(** The groups of the index do not depend on the order or the
    multiplicity of the records: two batches with the same records give the
    same groups, with the same [last_time], up to the order of groups with
    equal sort key. *)
Theorem build_shift_index_same_records (rows rows' : list record) :
  (∀ r, r ∈ rows ↔ r ∈ rows') →
  build_shift_index rows ≡ₚ build_shift_index rows'.
Proof.
  intros Hext. apply NoDup_Permutation; [apply index_nodup..|].
  intros g. rewrite !index_elem_of_iff. split.
  - intros [(r & Hr & Hv) Hl]. split; [exists r; by rewrite <-Hext|].
    by eapply is_latest_ext.
  - intros [(r & Hr & Hv) Hl]. split; [exists r; by rewrite Hext|].
    eapply is_latest_ext; [|done]. intros r'. by rewrite Hext.
Qed.

Lemma build_shift_index_same_records_witness :
  build_shift_index [obj_08_00; obj_09_30; obj_bad_time]
  ≡ₚ build_shift_index [obj_09_30; obj_bad_time; obj_08_00; obj_09_30].
Proof.
  apply build_shift_index_same_records. intros r.
  rewrite !elem_of_cons, !elem_of_nil. tauto.
Defined.

Lemma index_step_absorbed pre idx r :
  index_inv pre idx → r ∈ pre → index_step idx r = idx.
Proof.
  intros [Hnd Hg Hc] Hr. destruct (decide (valid r)) as [Hv|Hv];
    [|by apply index_step_skip].
  rewrite index_step_valid by done. simpl.
  destruct (Hc r Hr Hv) as [g Hk]. rewrite Hk.
  destruct (donetime_of r) as [tv|] eqn:Et; [|done].
  destruct (Hg _ _ Hk) as (_ & _ & Hl).
  destruct (last_time g) as [l|]; simpl in Hl.
  - destruct Hl as [_ Hmax]. by rewrite (Hmax r tv Hr eq_refl Et).
  - rewrite (Hl r Hr eq_refl) in Et. done.
Qed.

(** Records that are already in the batch, fed again after it, leave
    the index unchanged. *)
Theorem build_shift_index_repeated (rows more : list record) :
  (∀ r, r ∈ more → r ∈ rows) →
  build_shift_index (rows ++ more) = build_shift_index rows.
Proof.
  intros Hsub. unfold build_shift_index. rewrite foldl_app. f_equal. f_equal.
  pose proof (index_inv_foldl rows) as Hinv.
  induction more as [|r more IH]; simpl; [done|].
  rewrite (index_step_absorbed rows) by (auto; apply Hsub; left).
  apply IH. intros r' Hr'. apply Hsub. by right.
Qed.

Lemma build_shift_index_repeated_witness :
  build_shift_index ([obj_08_00; obj_09_30] ++ [obj_09_30; obj_08_00])
  = build_shift_index [obj_08_00; obj_09_30].
Proof.
  apply build_shift_index_repeated. intros r.
  rewrite !elem_of_cons, !elem_of_nil. tauto.
Defined.

Lemma index_empty_iff (rows : list record) :
  build_shift_index rows = [] ↔ ∀ r, r ∈ rows → ¬ valid r.
Proof.
  split.
  - intros He r Hr Hv.
    assert (Hg : ∃ g, g ∈ build_shift_index rows) .
    { destruct (index_inv_foldl rows) as [_ Hg Hc]. destruct (Hc r Hr Hv) as [g Hk].
      exists g. apply elem_of_build_shift_index. eauto. }
    destruct Hg as [g Hg]. rewrite He in Hg. by apply elem_of_nil in Hg.
  - intros Hnone. unfold build_shift_index.
    rewrite <-index_foldl_filter.
    replace (filter valid rows) with (@nil record); [done|].
    symmetry. induction rows as [|r l IH]; [done|].
    rewrite filter_cons_False by (apply Hnone; left).
    apply IH. intros r' Hin. apply Hnone. by right.
Qed.

(** The index is empty exactly when every record of the batch is
    skipped (some of shiftDate, shift, station, donetime is empty after
    trimming); this is when [picker] answers that no shifts were found. *)
Theorem build_shift_index_empty_iff (rows : list record) :
  build_shift_index rows = [] ↔ ∀ r, r ∈ rows → ¬ valid r.
Proof. apply index_empty_iff. Qed.

(** More records never remove a group nor move its [last_time] back:
    a group of a batch is still a group, with the same key and a
    [last_time] not earlier, when records are appended. *)
Theorem build_shift_index_grows (rows more : list record) (g : group) :
  g ∈ build_shift_index rows →
  ∃ g', g' ∈ build_shift_index (rows ++ more)
        ∧ key_of_group g' = key_of_group g
        ∧ match last_time g with
          | Some t => ∃ t', last_time g' = Some t' ∧ time_ltb t' t = false
          | None => True
          end.
Proof.
  rewrite index_elem_of_iff. intros [(r & Hr & Hv & Hk) Hl].
  destruct (index_inv_foldl (rows ++ more)) as [_ Hg Hc].
  assert (Hr' : r ∈ rows ++ more) by (rewrite elem_of_app; auto).
  destruct (Hc r Hr' Hv) as [g' Hk'].
  destruct (Hg _ _ Hk') as (Hkey & _ & Hl').
  exists g'. split_and!.
  - apply elem_of_build_shift_index. eauto.
  - unfold key_of_group in *. congruence.
  - destruct (last_time g) as [t|]; [|done]. simpl in Hl.
    destruct Hl as [(r0 & Hr0 & Hk0 & Ht0) _].
    assert (r0 ∈ rows ++ more) by (rewrite elem_of_app; auto).
    destruct (last_time g') as [t'|]; simpl in Hl'.
    + exists t'. split; [done|]. destruct Hl' as [_ Hmax].
      eapply Hmax; [done| |done]. congruence.
    + rewrite (Hl' r0) in Ht0; [done..|congruence].
Qed.

Lemma build_shift_index_grows_witness :
  ∃ g', g' ∈ build_shift_index ([obj_08_00] ++ [obj_09_30])
        ∧ key_of_group g' = (py "2024-01-01", py "A", py "Line1")
        ∧ ∃ t', last_time g' = Some t' ∧ time_ltb t' (mk_time 8 0) = false.
Proof.
  apply (build_shift_index_grows [obj_08_00] [obj_09_30]
           (mk_group (py "2024-01-01") (py "A") (py "Line1") (Some (mk_time 8 0)))).
  apply list_elem_of_In. vm_compute. auto.
Defined.

Lemma field_stripped (r : record) (k : string) : strip (field r k) = field r k.
Proof. apply strip_idemp. Qed.

(** The keys of the groups are the distinct keys of the records that
    are not skipped, one group each; their three fields are non-empty and
    trimmed. *)
Theorem build_shift_index_keys (rows : list record) :
  key_of_group <$> build_shift_index rows
    ≡ₚ remove_dups (group_key <$> filter valid rows)
  ∧ ∀ g, g ∈ build_shift_index rows →
      shiftDate g ≠ [] ∧ shift g ≠ [] ∧ station g ≠ []
      ∧ strip (shiftDate g) = shiftDate g ∧ strip (shift g) = shift g
      ∧ strip (station g) = station g.
Proof.
  split.
  - apply NoDup_Permutation.
    + unfold build_shift_index. rewrite sorted_perm, index_group_keys.
      apply index_inv_foldl.
    + apply NoDup_remove_dups.
    + intros k. rewrite elem_of_remove_dups, !list_elem_of_fmap. split.
      * intros (g & -> & [(r & Hr & Hv & Hk) _]%index_elem_of_iff).
        exists r. by rewrite list_elem_of_filter.
      * intros (r & -> & [Hv Hr]%list_elem_of_filter).
        destruct (index_inv_foldl rows) as [_ Hg Hc].
        destruct (Hc r Hr Hv) as [g Hk]. exists g. split.
        -- by destruct (Hg _ _ Hk) as [<- _].
        -- apply elem_of_build_shift_index. eauto.
  - intros g [(r & Hr & (?&?&?&?) & Hk) _]%index_elem_of_iff.
    unfold group_key, key_of_group in Hk. injection Hk as Hd Hs Ht.
    rewrite <-Hd, <-Hs, <-Ht, !field_stripped. done.
Qed.

(** ** More on the Report Builder *)

Lemma filter_all {A} (P : A → Prop) `{∀ x, Decision (P x)} (l : list A) :
  Forall P l → filter P l = l.
Proof.
  induction 1 as [|x l Hx _ IH]; [done|]. by rewrite filter_cons_True, IH.
Qed.

Lemma scan_survivors items rows sd sn st :
  scan (list_to_set items) (filter (selected sd sn st) (survivors items rows sd sn st))
  = scan (list_to_set items) (filter (selected sd sn st) rows).
Proof.
  rewrite (filter_all (selected sd sn st)).
  - unfold survivors, scan. apply scan_foldl_filter.
  - apply Forall_forall. intros r. unfold survivors.
    rewrite !list_elem_of_filter. tauto.
Qed.

Lemma build_report_with_scan items table rows rows' sd sn st :
  scan (list_to_set items) (filter (selected sd sn st) rows)
  = scan (list_to_set items) (filter (selected sd sn st) rows') →
  build_report_with items table rows sd sn st
  = build_report_with items table rows' sd sn st.
Proof. intros H. unfold build_report_with. by rewrite H. Qed.

(** The report depends only on the records that survive both
    filters: records of other groups, with an empty donetime or with an
    unrecognized item name never change it. *)
Theorem build_report_only_survivors (items : list pystr) (table : gmap pystr pystr)
    (rows rows' : list record) (sd sn st : pystr) :
  survivors items rows sd sn st = survivors items rows' sd sn st →
  build_report_with items table rows sd sn st
  = build_report_with items table rows' sd sn st
  ∧ build_report_with items table rows sd sn st
    = build_report_with items table (survivors items rows sd sn st) sd sn st.
Proof.
  intros Hs. split; apply build_report_with_scan.
  - by rewrite <-(scan_survivors items rows), <-(scan_survivors items rows'), Hs.
  - by rewrite scan_survivors.
Qed.

Lemma build_report_only_survivors_witness :
  build_report_with ORDERED_ITEMS SHIFT_START (same_donetime ++ [obj_08_00])
    (py "2024-01-01") (py "A") (py "S1")
  = build_report_with ORDERED_ITEMS SHIFT_START same_donetime
      (py "2024-01-01") (py "A") (py "S1")
  ∧ build_report_with ORDERED_ITEMS SHIFT_START (same_donetime ++ [obj_08_00])
      (py "2024-01-01") (py "A") (py "S1")
    = build_report_with ORDERED_ITEMS SHIFT_START
        (survivors ORDERED_ITEMS (same_donetime ++ [obj_08_00])
           (py "2024-01-01") (py "A") (py "S1"))
        (py "2024-01-01") (py "A") (py "S1").
Proof.
  apply build_report_only_survivors.
  unfold survivors. rewrite filter_app.
  assert (filter (selected (py "2024-01-01") (py "A") (py "S1")) [obj_08_00] = []) as ->.
  { rewrite filter_cons_False; [done|].
    vm_compute. intros (_ & _ & H). discriminate H. }
  by rewrite app_nil_r.
Defined.

(** [columns] holds each donetime of a surviving record exactly once,
    every column is a non-empty trimmed string, and [columns] is empty
    exactly when no record survives. *)
Theorem build_report_columns (items : list pystr) (table : gmap pystr pystr)
    (rows : list record) (sd sn st : pystr) :
  NoDup (columns (build_report_with items table rows sd sn st))
  ∧ (∀ t, t ∈ columns (build_report_with items table rows sd sn st)
          ↔ ∃ r, r ∈ survivors items rows sd sn st ∧ field r "donetime" = t)
  ∧ (columns (build_report_with items table rows sd sn st) = []
     ↔ survivors items rows sd sn st = [])
  ∧ Forall (fun t => t ≠ [] ∧ strip t = t)
           (columns (build_report_with items table rows sd sn st)).
Proof.
  split_and!.
  - apply report_columns_nodup.
  - apply report_columns_elem_of.
  - split; [|apply report_no_survivors].
    intros Hc. destruct (survivors items rows sd sn st) as [|r l] eqn:Es; [done|].
    assert (field r "donetime" ∈ columns (build_report_with items table rows sd sn st)) as Hin.
    { apply report_columns_elem_of. exists r. rewrite Es. split; [left|done]. }
    rewrite Hc in Hin. by apply elem_of_nil in Hin.
  - apply Forall_forall. intros t (r & Hr & <-)%report_columns_elem_of.
    split; [|apply field_stripped].
    unfold survivors in Hr. apply list_elem_of_filter in Hr as [[Hd _] _]. done.
Qed.

Lemma report_cell_normalized items table rows sd sn st row v :
  row ∈ matrix (build_report_with items table rows sd sn st) → v ∈ values row →
  ∃ x, v = normalize_value x.
Proof.
  rewrite report_matrix. intros (item & -> & _)%list_elem_of_fmap. simpl.
  intros (t & -> & _)%list_elem_of_fmap. rewrite report_value.
  destruct (last _) as [r|]; [by eexists | by exists VNone].
Qed.

(** Every value in the matrix is normalized: it has no comma, is
    trimmed, is no placeholder, and [normalize_value] leaves it as it is. *)
Theorem build_report_cells (items : list pystr) (table : gmap pystr pystr)
    (rows : list record) (sd sn st : pystr) (row : row) (v : pystr) :
  row ∈ matrix (build_report_with items table rows sd sn st) → v ∈ values row →
  (comma ∉ v) ∧ strip v = v ∧ (v ∉ [py "-"; py "N/A"; py "n/a"])
  ∧ normalize_value (VStr v) = v.
Proof.
  intros Hrow Hv.
  destruct (report_cell_normalized _ _ _ _ _ _ _ _ Hrow Hv) as [x ->].
  split_and!.
  - apply normalize_value_no_comma.
  - apply normalize_value_stripped.
  - apply normalize_value_not_placeholder.
  - apply normalize_value_fixed.
Qed.

Lemma build_report_cells_witness :
  (comma ∉ py "72.5") ∧ strip (py "72.5") = py "72.5"
  ∧ (py "72.5" ∉ [py "-"; py "N/A"; py "n/a"])
  ∧ normalize_value (VStr (py "72.5")) = py "72.5".
Proof.
  apply (build_report_cells ORDERED_ITEMS SHIFT_START scenario
           (py "2024-01-01") (py "A") (py "S1") (mk_row (py item1) [py "72.5"; []]));
    apply list_elem_of_In; vm_compute; auto.
Defined.

(** A report with at least one column, for non-empty selectors, is
    the report of a group that [build_shift_index] lists for the same
    records, and no column's time is later than that group's [last_time]. *)
Theorem build_report_group_indexed (items : list pystr) (table : gmap pystr pystr)
    (rows : list record) (sd sn st : pystr) :
  columns (build_report_with items table rows sd sn st) ≠ [] →
  sd ≠ [] → sn ≠ [] → st ≠ [] →
  ∃ g, g ∈ build_shift_index rows ∧ key_of_group g = (sd, sn, st)
       ∧ ∀ c t, c ∈ columns (build_report_with items table rows sd sn st) →
                parse_hhmm_str c = Some t →
                ∃ l, last_time g = Some l ∧ time_ltb l t = false.
Proof.
  intros Hc Hsd Hsn Hst.
  assert (Hsurv : ∀ r, r ∈ survivors items rows sd sn st →
            r ∈ rows ∧ valid r ∧ group_key r = (sd, sn, st)).
  { intros r. unfold survivors. rewrite !list_elem_of_filter.
    intros ([Hd _] & (<- & <- & <-) & Hr). by split_and!. }
  destruct (columns (build_report_with items table rows sd sn st)) as [|c0 cs] eqn:Ec;
    [done|].
  assert (c0 ∈ columns (build_report_with items table rows sd sn st)) as Hc0
    by (rewrite Ec; left).
  apply report_columns_elem_of in Hc0 as (r0 & Hr0 & _).
  destruct (Hsurv r0 Hr0) as (Hin0 & Hv0 & Hk0).
  destruct (index_inv_foldl rows) as [_ Hg Hcomp].
  destruct (Hcomp r0 Hin0 Hv0) as [g Hk].
  destruct (Hg _ _ Hk) as (Hkey & _ & Hl).
  exists g. split_and!.
  - apply elem_of_build_shift_index. eauto.
  - unfold key_of_group. congruence.
  - intros c t Hin Ht. rewrite <-Ec in Hin.
    apply report_columns_elem_of in Hin as (r & Hr & <-).
    destruct (Hsurv r Hr) as (Hin & Hv & Hkr).
    destruct (last_time g) as [l|]; simpl in Hl.
    + exists l. split; [done|]. destruct Hl as [_ Hmax].
      eapply (Hmax r t); [done| congruence | done].
    + assert (donetime_of r = None) as Hn by (apply Hl; [done|congruence]).
      unfold donetime_of in Hn. congruence.
Qed.

Lemma build_report_group_indexed_witness :
  ∃ g, g ∈ build_shift_index scenario
       ∧ key_of_group g = (py "2024-01-01", py "A", py "S1")
       ∧ ∀ c t, c ∈ columns (build_report_with ORDERED_ITEMS SHIFT_START scenario
                               (py "2024-01-01") (py "A") (py "S1")) →
                parse_hhmm_str c = Some t →
                ∃ l, last_time g = Some l ∧ time_ltb l t = false.
Proof.
  apply build_report_group_indexed; vm_compute; discriminate.
Defined.

Lemma build_shift_index_empty_iff_witness : build_shift_index [obj_no_station] = [].
Proof.
  apply build_shift_index_empty_iff. intros r ->%list_elem_of_singleton.
  vm_compute. intros (_ & _ & H & _). by apply H.
Defined.

Lemma build_shift_index_keys_witness :
  shiftDate (mk_group (py "2024-01-01") (py "A") (py "Line1") (Some (mk_time 9 30))) ≠ []
  ∧ py "A" ≠ [] ∧ py "Line1" ≠ []
  ∧ strip (py "2024-01-01") = py "2024-01-01" ∧ strip (py "A") = py "A"
  ∧ strip (py "Line1") = py "Line1".
Proof.
  destruct (build_shift_index_keys [obj_08_00; obj_09_30]) as [_ Hfields].
  apply (Hfields (mk_group (py "2024-01-01") (py "A") (py "Line1") (Some (mk_time 9 30)))).
  apply list_elem_of_In. vm_compute. auto.
Defined.

(** ** split and the selection key *)

Lemma split_not_nil (sep : N) (s : pystr) : split sep s ≠ [].
Proof.
  induction s as [|c r IH]; simpl; [done|].
  destruct (c =? sep)%N; [done|]. destruct (split sep r); done.
Qed.

Lemma split_length (sep : N) (s : pystr) :
  length (split sep s) = S (length (filter (fun c => c = sep) s)).
Proof.
  induction s as [|c r IH]; [done|]. simpl split. rewrite filter_cons.
  destruct (N.eqb_spec c sep) as [->|Hne].
  - rewrite decide_True by done. simpl. by rewrite IH.
  - rewrite decide_False by done.
    pose proof (split_not_nil sep r). destruct (split sep r); [done|].
    simpl in *. done.
Qed.

Lemma split_no_sep (sep : N) (s : pystr) : sep ∉ s → split sep s = [s].
Proof.
  induction s as [|c r IH]; [done|]. intros [Hc Hr]%not_elem_of_cons. simpl.
  destruct (N.eqb_spec c sep) as [->|_]; [done|]. by rewrite IH.
Qed.

Lemma split_app_sep (sep : N) (a r : pystr) :
  sep ∉ a → split sep (a ++ sep :: r) = a :: split sep r.
Proof.
  induction a as [|c a IH]; simpl.
  - intros _. by rewrite N.eqb_refl.
  - intros [Hc Ha]%not_elem_of_cons.
    destruct (N.eqb_spec c sep) as [->|_]; [done|]. by rewrite IH.
Qed.

Lemma split_three (p0 p1 p2 : pystr) :
  bar ∉ p0 → bar ∉ p1 → bar ∉ p2 →
  split bar (p0 ++ [bar] ++ p1 ++ [bar] ++ p2) = [p0; p1; p2].
Proof.
  intros H0 H1 H2. simpl.
  by rewrite !split_app_sep, split_no_sep.
Qed.

(** The parts of a key with exactly two bars. *)
Lemma split_three_inv (key p0 p1 p2 : pystr) :
  split bar key = [p0; p1; p2] →
  key = p0 ++ [bar] ++ p1 ++ [bar] ++ p2 ∧ (bar ∉ p0) ∧ (bar ∉ p1) ∧ (bar ∉ p2).
Proof.
  assert (Hgen : ∀ (s : pystr) p ps, split bar s = p :: ps →
            (bar ∉ p) ∧ match ps with
                      | [] => s = p
                      | _ => ∃ r, s = p ++ bar :: r ∧ split bar r = ps
                      end).
  { induction s as [|c r IH]; intros p ps; simpl.
    - intros [= <- <-]. split; [apply not_elem_of_nil | done].
    - destruct (N.eqb_spec c bar) as [->|Hne].
      + intros [= <- <-]. split; [apply not_elem_of_nil|].
        pose proof (split_not_nil bar r). destruct (split bar r) eqn:E; [done|].
        exists r. by rewrite E.
      + destruct (split bar r) as [|q qs] eqn:E; [by destruct (split_not_nil bar r)|].
        intros [= <- <-]. destruct (IH q qs eq_refl) as [Hq Hrest].
        split; [by apply not_elem_of_cons|].
        destruct qs; [by subst|]. destruct Hrest as (r' & -> & Hr'). by exists r'. }
  intros H. destruct (Hgen _ _ _ H) as (H0 & r1 & -> & H1).
  destruct (Hgen _ _ _ H1) as (H1' & r2 & -> & H2).
  destruct (Hgen _ _ _ H2) as (H2' & ->). done.
Qed.

(** ** render_print *)

Lemma render_print_invalid_iff
    (fetch : date → date → raised + list record) (key : pystr) :
  (render_print fetch key = inr Invalid_selection
   ↔ length (filter (fun c => c = bar) key) ≠ 2%nat)
  ∧ (render_print fetch key ≠ inr Invalid_selection →
     ∃ p0 p1 p2, key = p0 ++ [bar] ++ p1 ++ [bar] ++ p2
                 ∧ (bar ∉ p0) ∧ (bar ∉ p1) ∧ (bar ∉ p2)).
Proof.
  pose proof (split_length bar key) as Hlen.
  assert (Hresp : ∀ p0 p1 p2, split bar key = [p0; p1; p2] →
            render_print fetch key ≠ inr Invalid_selection).
  { intros p0 p1 p2 Hs. unfold render_print. rewrite Hs.
    destruct (strptime_Ymd _); [|done].
    destruct (minus_one_day _); [done|]. destruct (plus_one_day _); [done|].
    destruct (fetch _ _); [done|]. by case_bool_decide. }
  destruct (split bar key) as [|p0 [|p1 [|p2 [|p3 ps]]]] eqn:Hs; simpl in Hlen.
  - by destruct (split_not_nil bar key).
  - unfold render_print. rewrite Hs. split; [split; [lia|done]|done].
  - unfold render_print. rewrite Hs. split; [split; [lia|done]|done].
  - split.
    + split; [intros H; by destruct (Hresp _ _ _ eq_refl) | lia].
    + intros _. exists p0, p1, p2. by apply split_three_inv.
  - unfold render_print. rewrite Hs. split; [split; [lia|done]|done].
Qed.

(** [render_print] answers "Invalid selection" exactly for the keys that do
    not hold two ["|"], and then without any request; in every other case
    the key is [p0|p1|p2] and the three parts hold no ["|"]. *)
Theorem render_print_invalid_selection
    (fetch : date → date → raised + list record) (key : pystr) :
  (render_print fetch key = inr Invalid_selection
   ↔ length (filter (fun c => c = bar) key) ≠ 2%nat)
  ∧ (render_print fetch key ≠ inr Invalid_selection →
     ∃ p0 p1 p2, key = p0 ++ [bar] ++ p1 ++ [bar] ++ p2
                 ∧ (bar ∉ p0) ∧ (bar ∉ p1) ∧ (bar ∉ p2)).
Proof. apply render_print_invalid_iff. Qed.

Lemma render_print_invalid_selection_witness :
  ∃ p0 p1 p2, py "2024-01-01|A|S1" = p0 ++ [bar] ++ p1 ++ [bar] ++ p2
              ∧ (bar ∉ p0) ∧ (bar ∉ p1) ∧ (bar ∉ p2).
Proof.
  destruct (render_print_invalid_selection (fun _ _ => inl RequestError)
              (py "2024-01-01|A|S1")) as [_ Hparts].
  apply Hparts. vm_compute. discriminate.
Defined.

(** ** Dates *)

Lemma digit_two_range c1 c2 s d r :
  (d, r) ∈ two c1 c2 s →
  (∀ x a, c1 x = Some a → 0 ≤ a ≤ 9) → (∀ x a, c2 x = Some a → 0 ≤ a ≤ 9) →
  0 ≤ d ≤ 99.
Proof.
  intros (a & b & x & y & _ & Ha & Hb & ->)%elem_of_two H1 H2.
  apply H1 in Ha. apply H2 in Hb. lia.
Qed.

Lemma re_Y_range s y r : (y, r) ∈ re_Y s → 0 ≤ y ≤ 9999.
Proof.
  unfold re_Y. intros ([a r1] & H & Ha)%list_elem_of_bind.
  apply list_elem_of_bind in H as ([b r2] & H & Hb).
  apply list_elem_of_singleton in H. simplify_eq.
  apply digit_two_range in Ha; [|eauto using digit_range..].
  apply digit_two_range in Hb; [|eauto using digit_range..]. lia.
Qed.

Lemma strptime_Ymd_valid (s : pystr) (d : date) :
  strptime_Ymd s = Returns d → valid_date d.
Proof.
  intros H. pose proof (strptime_Ymd_range _ _ H) as (Hy & Hm & Hd).
  unfold strptime_Ymd in H.
  destruct (head _) as [[[[y m] d'] [|c r]]|] eqn:E; [|done..].
  destruct (_ && _) eqn:Hv; simplify_eq. simpl in *.
  apply head_Some_elem_of in E.
  apply list_elem_of_bind in E as [[y' r0] [E HY]].
  apply list_elem_of_bind in E as [r1 [E _]].
  apply list_elem_of_bind in E as [[m' r2] [E _]].
  apply list_elem_of_bind in E as [r3 [E _]].
  apply list_elem_of_bind in E as [[d'' r4] [E _]].
  apply list_elem_of_singleton in E. simplify_eq.
  apply re_Y_range in HY. unfold valid_date; simpl. bool_to_Z. lia.
Qed.

Lemma days_in_month_range (y m : Z) : 28 ≤ days_in_month y m ≤ 31.
Proof.
  unfold days_in_month. repeat case_match; lia.
Qed.

Lemma days_in_month_12 (y : Z) : days_in_month y 12 = 31.
Proof. reflexivity. Qed.

Lemma date_ltb_spec (a b : date) :
  date_ltb a b = true
  ↔ year a < year b
    ∨ year a = year b ∧ (month a < month b ∨ month a = month b ∧ day a < day b).
Proof. unfold date_ltb. bool_to_Z. lia. Qed.

Ltac split_ltb :=
  repeat match goal with
         | |- context [?a <? ?b] => destruct (Z.ltb_spec a b)
         end.

Lemma minus_one_day_spec (d d' : date) :
  valid_date d → minus_one_day d = inr d' →
  valid_date d' ∧ date_ltb d' d = true ∧ plus_one_day d' = inr d.
Proof.
  destruct d as [y m dd]. rewrite date_ltb_spec.
  unfold valid_date, minus_one_day, plus_one_day. simpl.
  intros (Hy & Hm & Hd) H.
  pose proof (days_in_month_range y m).
  pose proof (days_in_month_range y (m - 1)).
  pose proof (days_in_month_12 (y - 1)).
  destruct (Z.ltb_spec 1 dd); [|destruct (Z.ltb_spec 1 m); [|destruct (Z.ltb_spec 1 y)]];
    simplify_eq; simpl.
  - split; [lia|]. split; [lia|]. split_ltb; try lia. do 2 f_equal; lia.
  - split; [lia|]. split; [lia|]. split_ltb; try lia.
    replace (m - 1 + 1) with m by lia. do 2 f_equal; lia.
  - split; [lia|]. split; [lia|]. split_ltb; try lia.
    replace (y - 1 + 1) with y by lia. do 2 f_equal; lia.
Qed.

Lemma plus_one_day_spec (d d' : date) :
  valid_date d → plus_one_day d = inr d' →
  valid_date d' ∧ date_ltb d d' = true ∧ minus_one_day d' = inr d.
Proof.
  destruct d as [y m dd]. rewrite date_ltb_spec.
  unfold valid_date, minus_one_day, plus_one_day. simpl.
  intros (Hy & Hm & Hd) H.
  pose proof (days_in_month_range y m).
  pose proof (days_in_month_range y (m + 1)).
  pose proof (days_in_month_range (y + 1) 1).
  destruct (Z.ltb_spec dd (days_in_month y m));
    [|destruct (Z.ltb_spec m 12); [|destruct (Z.ltb_spec y 9999)]];
    simplify_eq; simpl.
  - split; [lia|]. split; [lia|]. split_ltb; try lia.
    replace (dd + 1 - 1) with dd by lia. done.
  - split; [lia|]. split; [lia|]. split_ltb; try lia.
    replace (m + 1 - 1) with m by lia. do 2 f_equal; lia.
  - assert (m = 12) as -> by lia. rewrite days_in_month_12 in *.
    split; [lia|]. split; [lia|]. split_ltb; try lia.
    replace (y + 1 - 1) with y by lia. do 2 f_equal; lia.
Qed.

Lemma minus_one_day_overflow (d : date) (e : raised) :
  valid_date d → minus_one_day d = inl e → e = OverflowError ∧ d = mk_date 1 1 1.
Proof.
  destruct d as [y m dd]. unfold valid_date, minus_one_day. simpl.
  intros (Hy & Hm & Hd) H. repeat case_match; simplify_eq.
  bool_to_Z. split; [done|]. f_equal; lia.
Qed.

Lemma plus_one_day_overflow (d : date) (e : raised) :
  valid_date d → plus_one_day d = inl e → e = OverflowError ∧ d = mk_date 9999 12 31.
Proof.
  destruct d as [y m dd]. unfold valid_date, plus_one_day. simpl.
  intros (Hy & Hm & Hd) H. repeat case_match; simplify_eq.
  bool_to_Z. assert (m = 12) as -> by lia. rewrite days_in_month_12 in *.
  split; [done|]. f_equal; lia.
Qed.

Lemma build_report_echo rows sd sn st :
  report_shiftDate (build_report rows sd sn st) = sd
  ∧ report_shift (build_report rows sd sn st) = sn
  ∧ report_station (build_report rows sd sn st) = st.
Proof.
  unfold build_report, build_report_with. by destruct (scan _ _).
Qed.

(** When [render_print] renders the print form, the report has at least one
    column; its selectors are the three parts of the key, trimmed; its
    shiftDate is a date of the calendar; and the report is built from the
    records fetched for the day before to the day after that date. *)
Theorem render_print_print_form (fetch : date → date → raised + list record)
    (key : pystr) (rep : report) :
  render_print fetch key = inr (Print_form rep) →
  columns rep ≠ []
  ∧ ∃ p0 p1 p2 day start_date end_date rows,
      key = p0 ++ [bar] ++ p1 ++ [bar] ++ p2
      ∧ report_shiftDate rep = strip p0 ∧ report_shift rep = strip p1
      ∧ report_station rep = strip p2
      ∧ strptime_Ymd (strip p0) = Returns day ∧ valid_date day
      ∧ minus_one_day day = inr start_date ∧ plus_one_day day = inr end_date
      ∧ date_ltb start_date day = true ∧ date_ltb day end_date = true
      ∧ fetch start_date end_date = inr rows
      ∧ rep = build_report rows (strip p0) (strip p1) (strip p2).
Proof.
  unfold render_print.
  destruct (split bar key) as [|p0 [|p1 [|p2 [|p3 ps]]]] eqn:Hs; try done.
  destruct (strptime_Ymd (strip p0)) as [day|] eqn:Hday; [|done].
  pose proof (strptime_Ymd_valid _ _ Hday) as Hvalid.
  destruct (minus_one_day day) as [|start_date] eqn:Hstart; [done|].
  destruct (plus_one_day day) as [|end_date] eqn:Hend; [done|].
  destruct (fetch start_date end_date) as [|rows] eqn:Hrows; [done|].
  case_bool_decide as Hcols; [done|]. intros [= <-]. split; [done|].
  destruct (build_report_echo rows (strip p0) (strip p1) (strip p2)) as (? & ? & ?).
  destruct (minus_one_day_spec _ _ Hvalid Hstart) as (_ & ? & _).
  destruct (plus_one_day_spec _ _ Hvalid Hend) as (_ & ? & _).
  apply split_three_inv in Hs as (-> & _).
  exists p0, p1, p2, day, start_date, end_date, rows. by split_and!.
Qed.

Lemma render_print_print_form_witness :
  columns (build_report scenario (py "2024-01-01") (py "A") (py "S1")) ≠ []
  ∧ ∃ p0 p1 p2 day start_date end_date rows,
      py " 2024-01-01|A | S1" = p0 ++ [bar] ++ p1 ++ [bar] ++ p2
      ∧ report_shiftDate (build_report scenario (py "2024-01-01") (py "A") (py "S1"))
        = strip p0
      ∧ report_shift (build_report scenario (py "2024-01-01") (py "A") (py "S1"))
        = strip p1
      ∧ report_station (build_report scenario (py "2024-01-01") (py "A") (py "S1"))
        = strip p2
      ∧ strptime_Ymd (strip p0) = Returns day ∧ valid_date day
      ∧ minus_one_day day = inr start_date ∧ plus_one_day day = inr end_date
      ∧ date_ltb start_date day = true ∧ date_ltb day end_date = true
      ∧ (inr scenario : raised + list record) = inr rows
      ∧ build_report scenario (py "2024-01-01") (py "A") (py "S1")
        = build_report rows (strip p0) (strip p1) (strip p2).
Proof.
  apply (render_print_print_form (fun _ _ => inr scenario) (py " 2024-01-01|A | S1")).
  vm_compute. reflexivity.
Defined.

(** Nothing the fetch raises leaves [render_print]: an exception gets out
    only as the [OverflowError] of the date arithmetic, for the first or the
    last date of the calendar, and then before any request. *)
Theorem render_print_raises (fetch : date → date → raised + list record)
    (key : pystr) (e : raised) :
  render_print fetch key = inl e →
  e = OverflowError
  ∧ ∃ p0 p1 p2 day,
      key = p0 ++ [bar] ++ p1 ++ [bar] ++ p2
      ∧ strptime_Ymd (strip p0) = Returns day
      ∧ (day = mk_date 1 1 1 ∨ day = mk_date 9999 12 31)
      ∧ ∀ fetch', render_print fetch' key = inl e.
Proof.
  unfold render_print.
  destruct (split bar key) as [|p0 [|p1 [|p2 [|p3 ps]]]] eqn:Hs; try done.
  destruct (strptime_Ymd (strip p0)) as [day|] eqn:Hday; [|done].
  pose proof (strptime_Ymd_valid _ _ Hday) as Hvalid.
  apply split_three_inv in Hs as (-> & _).
  destruct (minus_one_day day) as [e'|start_date] eqn:Hstart.
  { intros [= ->]. destruct (minus_one_day_overflow _ _ Hvalid Hstart) as [-> ->].
    split; [done|]. exists p0, p1, p2, (mk_date 1 1 1). auto. }
  destruct (plus_one_day day) as [e'|end_date] eqn:Hend.
  { intros [= ->]. destruct (plus_one_day_overflow _ _ Hvalid Hend) as [-> ->].
    split; [done|]. exists p0, p1, p2, (mk_date 9999 12 31). auto. }
  destruct (fetch start_date end_date); [done|]. by case_bool_decide.
Qed.

Lemma render_print_raises_witness :
  OverflowError = OverflowError
  ∧ ∃ p0 p1 p2 day,
      py "0001-01-01|A|S1" = p0 ++ [bar] ++ p1 ++ [bar] ++ p2
      ∧ strptime_Ymd (strip p0) = Returns day
      ∧ (day = mk_date 1 1 1 ∨ day = mk_date 9999 12 31)
      ∧ ∀ fetch', render_print fetch' (py "0001-01-01|A|S1") = inl OverflowError.
Proof.
  apply (render_print_raises (fun _ _ => inr []) (py "0001-01-01|A|S1")).
  vm_compute. reflexivity.
Defined.

Lemma selection_key_bars (g : group) :
  length (filter (fun c => c = bar) (selection_key g))
  = (2 + length (filter (fun c => c = bar) (shiftDate g))
     + length (filter (fun c => c = bar) (shift g))
     + length (filter (fun c => c = bar) (station g)))%nat.
Proof.
  unfold selection_key. rewrite !filter_app, !length_app.
  rewrite (filter_cons_True _ bar []) by done. simpl. lia.
Qed.

Lemma filter_length_0 {A} (P : A → Prop) `{∀ x, Decision (P x)} (l : list A) :
  length (filter P l) = 0%nat ↔ ∀ x, x ∈ l → ¬ P x.
Proof.
  induction l as [|x l IH]; [split; [by intros _ x ?%elem_of_nil | done]|].
  rewrite filter_cons. case_decide as Hx; simpl.
  - split; [done|]. intros Hall. destruct (Hall x); [left | done].
  - rewrite IH. split.
    + intros Hall y [->|Hy]%elem_of_cons; auto.
    + intros Hall y Hy. apply Hall. by right.
Qed.

(** The key [date|shift|station] of a group of the index is accepted by
    [render_print] exactly when none of the three fields holds a ["|"];
    the selectors it is split into are then the group's own fields. *)
Theorem render_print_selection_key (fetch : date → date → raised + list record)
    (rows : list record) (g : group) :
  g ∈ build_shift_index rows →
  (render_print fetch (selection_key g) = inr Invalid_selection
   ↔ bar ∈ shiftDate g ∨ bar ∈ shift g ∨ bar ∈ station g)
  ∧ ((bar ∉ shiftDate g) → (bar ∉ shift g) → (bar ∉ station g) →
     strip <$> split bar (selection_key g) = [shiftDate g; shift g; station g]).
Proof.
  intros Hg. split.
  - destruct (render_print_invalid_iff fetch (selection_key g)) as [-> _].
    rewrite selection_key_bars.
    assert (Hin : ∀ s : pystr, bar ∈ s ↔ length (filter (fun c => c = bar) s) ≠ 0%nat).
    { intros s. rewrite filter_length_0. split.
      - intros Hs Hall. by apply (Hall bar).
      - intros Hs. destruct (decide (bar ∈ s)) as [|Hn]; [done|].
        destruct Hs. intros x Hx ->. done. }
    rewrite !Hin. lia.
  - intros H0 H1 H2. unfold selection_key. rewrite split_three by done.
    destruct (index_elem_of_iff rows g) as [Hex _].
    destruct (Hex Hg) as [(r & _ & _ & Hk) _].
    unfold group_key, key_of_group in Hk. injection Hk as Hd Hs Ht.
    simpl. rewrite <-Hd, <-Hs, <-Ht, !field_stripped. done.
Qed.

Lemma render_print_selection_key_witness :
  strip <$> split bar (selection_key
    (mk_group (py "2024-01-01") (py "A") (py "Line1") (Some (mk_time 9 30))))
  = [py "2024-01-01"; py "A"; py "Line1"].
Proof.
  destruct (render_print_selection_key (fun _ _ => inr [])
              [obj_08_00; obj_09_30]
              (mk_group (py "2024-01-01") (py "A") (py "Line1") (Some (mk_time 9 30))))
    as [_ Hsplit].
  - apply list_elem_of_In. vm_compute. auto.
  - apply Hsplit; compute_done.
Defined.

Lemma row_objects_Some (rows : list json_row) (records : list record) :
  row_objects rows = Some records ↔ rows = Row_object <$> records.
Proof.
  revert records. induction rows as [|[r|] rows IH]; intros records; simpl.
  - split; [by intros [= <-] | by destruct records].
  - destruct (row_objects rows) as [l|].
    + split.
      * intros [= <-]. rewrite fmap_cons. f_equal. by apply IH.
      * destruct records as [|r' l']; [done|]. rewrite fmap_cons.
        intros [= <- Hl]. f_equal. f_equal. apply IH in Hl. congruence.
    + split; [done|]. destruct records as [|r' l']; [done|]. rewrite fmap_cons.
      intros [= <- Hl]. apply IH in Hl. done.
  - split; [done | by destruct records].
Qed.

Lemma row_objects_None (rows : list json_row) :
  row_objects rows = None ↔ Row_other ∈ rows.
Proof.
  induction rows as [|[r|] rows IH]; simpl.
  - split; [done | by intros ?%elem_of_nil].
  - rewrite elem_of_cons, <-IH. destruct (row_objects rows); split; try done.
    + by intros [?|?].
    + auto.
  - split; [intros _; left | done].
Qed.

(** [picker] returns an answer only when the fetch for the last three days
    succeeds and every fetched row is an object: "no shifts found" when
    every record is skipped by the index, and otherwise the rendered page of
    the non-empty index. It ends with [AttributeError] exactly when the
    fetch succeeds and some fetched row is no object; a failure of the date
    arithmetic or of the fetch is not caught either. *)
Theorem picker_answers (fetch : date → date → raised + list json_row)
    (render_template : list group → option response) (today : date) :
  (∀ resp, picker fetch render_template today = Picker_returns resp →
     ∃ start_date records,
       minus_days 3 today = inr start_date
       ∧ fetch start_date today = inr (Row_object <$> records)
       ∧ ((resp = No_shifts_found ∧ ∀ r, r ∈ records → ¬ valid r)
          ∨ ((∃ r, r ∈ records ∧ valid r)
             ∧ build_shift_index records ≠ []
             ∧ render_template (build_shift_index records) = Some resp)))
  ∧ (picker fetch render_template today = Picker_raises_AttributeError
     ↔ ∃ start_date rows,
         minus_days 3 today = inr start_date ∧ fetch start_date today = inr rows
         ∧ Row_other ∈ rows)
  ∧ (∀ e, picker fetch render_template today = Picker_raises e →
       minus_days 3 today = inl e
       ∨ ∃ start_date, minus_days 3 today = inr start_date
                       ∧ fetch start_date today = inl e).
Proof.
  unfold picker. destruct (minus_days 3 today) as [e|start_date].
  { split_and!; [done| |intros ? [= <-]; by left].
    split; [done | by intros (? & ? & ? & _)]. }
  destruct (fetch start_date today) as [e|rows] eqn:Hf.
  { split_and!; [done| |intros ? [= <-]; right; eauto].
    split; [done | intros (? & ? & [= <-] & Hf' & _); congruence]. }
  destruct (row_objects rows) as [records|] eqn:Hrows.
  - pose proof (proj1 (row_objects_Some _ _) Hrows) as ->.
    assert (Hno : ¬ Row_other ∈ Row_object <$> records)
      by (rewrite <-row_objects_None; congruence).
    split_and!.
    + intros resp. case_bool_decide as He.
      * intros [= <-]. exists start_date, records. split_and!; [done..|].
        left. split; [done|]. by apply index_empty_iff.
      * destruct (render_template _) as [page|] eqn:Hpage; [|done].
        intros [= <-]. exists start_date, records. split_and!; [done..|].
        right. split_and!; [|done..].
        destruct (decide (Exists valid records)) as [Hex|Hnex].
        -- apply Exists_exists in Hex. done.
        -- destruct He. apply index_empty_iff.
           intros r Hr Hv. apply Hnex, Exists_exists. eauto.
    + split.
      * case_bool_decide; [done|]. by destruct (render_template _).
      * intros (? & ? & [= <-] & Hf' & Hin).
        rewrite Hf in Hf'. injection Hf' as <-. done.
    + intros e. case_bool_decide; [done|]. by destruct (render_template _).
  - apply row_objects_None in Hrows. split_and!; [done| |done].
    split; [eauto 10 | done].
Qed.

Lemma picker_answers_witness :
  ∃ start_date records,
    minus_days 3 (mk_date 2024 3 2) = inr start_date
    ∧ (inr [Row_object obj_08_00; Row_object obj_no_station] : raised + list json_row)
      = inr (Row_object <$> records)
    ∧ ((Picker_page [mk_group (py "2024-01-01") (py "A") (py "Line1")
                              (Some (mk_time 8 0))] = No_shifts_found
        ∧ ∀ r, r ∈ records → ¬ valid r)
       ∨ ((∃ r, r ∈ records ∧ valid r)
          ∧ build_shift_index records ≠ []
          ∧ Some (Picker_page (build_shift_index records))
            = Some (Picker_page [mk_group (py "2024-01-01") (py "A") (py "Line1")
                                          (Some (mk_time 8 0))]))).
Proof.
  destruct (picker_answers
              (fun _ _ => inr [Row_object obj_08_00; Row_object obj_no_station])
              (fun shifts => Some (Picker_page shifts))
              (mk_date 2024 3 2)) as [Hresp _].
  apply (Hresp (Picker_page
           [mk_group (py "2024-01-01") (py "A") (py "Line1") (Some (mk_time 8 0))])).
  vm_compute. reflexivity.
Defined.

(** ** Credentials *)

(** Name quotient and remainder of a division, with their equations. *)
Ltac N_divmod :=
  repeat match goal with
         | |- context [(?x / ?n)%N] =>
             let q := fresh "q" in
             let r := fresh "r" in
             pose proof (N.div_mod' x n);
             pose proof (N.mod_upper_bound x n ltac:(done));
             set (q := (x / n)%N) in *; set (r := (x mod n)%N) in *;
             clearbody q r
         | |- context [(?x mod ?n)%N] =>
             let q := fresh "q" in
             let r := fresh "r" in
             pose proof (N.div_mod' x n);
             pose proof (N.mod_upper_bound x n ltac:(done));
             set (q := (x / n)%N) in *; set (r := (x mod n)%N) in *;
             clearbody q r
         end.

Lemma utf8_encode_char_decode (c : N) (bs rest : list N) :
  utf8_encode_char c = inr bs →
  utf8_decode (bs ++ rest) = c :: utf8_decode rest.
Proof.
  unfold utf8_encode_char.
  destruct (N.ltb_spec c 128); [intros [= <-]; simpl; by rewrite (proj2 (N.ltb_lt c 128))|].
  destruct (N.ltb_spec c 2048).
  { intros [= <-]. simpl.
    rewrite (proj2 (N.ltb_ge _ 128)), (proj2 (N.ltb_lt _ 224)); [|N_divmod; lia..].
    f_equal. N_divmod. lia. }
  destruct (N.ltb_spec c 65536).
  { destruct (_ && _); [done|]. intros [= <-]. simpl.
    rewrite (proj2 (N.ltb_ge _ 128)), (proj2 (N.ltb_ge _ 224)), (proj2 (N.ltb_lt _ 240));
      [|rewrite <-?(N.Div0.div_div c 64 64) by done; N_divmod; lia..].
    f_equal. change 4096%N with (64 * 64)%N. rewrite <-(N.Div0.div_div c 64 64) by done.
    N_divmod. lia. }
  intros [= <-]. simpl.
  rewrite (proj2 (N.ltb_ge _ 128)), (proj2 (N.ltb_ge _ 224)), (proj2 (N.ltb_ge _ 240));
    [|N_divmod; lia..].
  f_equal. change 262144%N with (64 * 64 * 64)%N. change 4096%N with (64 * 64)%N.
  rewrite <-!N.Div0.div_div by done. N_divmod. lia.
Qed.

Lemma utf8_encode_decode (s : pystr) (bs : list N) :
  utf8_encode s = inr bs → utf8_decode bs = s.
Proof.
  revert bs. induction s as [|c s IH]; intros bs; simpl; [by intros [= <-]|].
  destruct (utf8_encode_char c) as [|b1] eqn:Hc; [done|].
  destruct (utf8_encode s) as [|b2]; [done|]. intros [= <-].
  rewrite (utf8_encode_char_decode _ _ _ Hc). f_equal. by apply IH.
Qed.

Lemma utf8_encode_char_bytes (c : N) (bs : list N) :
  (c < 1114112)%N → utf8_encode_char c = inr bs → Forall (fun b => (b < 256)%N) bs.
Proof.
  unfold utf8_encode_char. intros Hc.
  repeat case_match; intros [= <-]; repeat constructor;
    rewrite ?N.ltb_lt, ?N.ltb_ge in *; N_divmod; lia.
Qed.

Lemma utf8_encode_bytes (s : pystr) (bs : list N) :
  Forall (fun c => (c < 1114112)%N) s → utf8_encode s = inr bs →
  Forall (fun b => (b < 256)%N) bs.
Proof.
  intros Hs. revert bs. induction Hs as [|c s Hc _ IH]; intros bs; simpl;
    [by intros [= <-]|].
  destruct (utf8_encode_char c) as [|b1] eqn:Hb; [done|].
  destruct (utf8_encode s) as [|b2]; [done|]. intros [= <-].
  apply Forall_app. split; [by eapply utf8_encode_char_bytes | by apply IH].
Qed.

Lemma utf8_encode_raises (s : pystr) (e : raised) :
  utf8_encode s = inl e →
  e = UnicodeEncodeError ∧ ∃ c, c ∈ s ∧ (55296 ≤ c ≤ 57343)%N.
Proof.
  induction s as [|c s IH]; simpl; [done|].
  destruct (utf8_encode_char c) as [e'|b1] eqn:Hc.
  - intros [= <-]. unfold utf8_encode_char in Hc.
    repeat case_match; simplify_eq. split; [done|]. exists c. split; [left|].
    rewrite ?andb_true_iff, ?N.leb_le in *. lia.
  - destruct (utf8_encode s) as [e'|b2]; [|done]. intros [= <-].
    destruct (IH eq_refl) as (-> & c' & Hin & Hc'). split; [done|].
    exists c'. split; [by right | done].
Qed.

Lemma b64_index_char (i : N) :
  (i < 64)%N → b64_index (b64_char i) = i ∧ b64_char i ≠ b64_pad.
Proof.
  intros Hi.
  assert (Hall : forallb (fun i => bool_decide (b64_index (b64_char i) = i
                                                 ∧ b64_char i ≠ b64_pad))
                         (N.of_nat <$> seq 0 64) = true) by (vm_compute; reflexivity).
  rewrite forallb_forall in Hall.
  assert (Hin : i ∈ N.of_nat <$> seq 0 64).
  { apply list_elem_of_fmap. exists (N.to_nat i). split; [lia|].
    apply elem_of_seq. lia. }
  apply list_elem_of_In, Hall in Hin. by apply bool_decide_eq_true in Hin.
Qed.

Lemma b64_three (a b c : N) :
  (a < 256)%N → (b < 256)%N → (c < 256)%N →
  let i0 := (a / 4)%N in
  let i1 := ((a mod 4) * 16 + b / 16)%N in
  let i2 := ((b mod 16) * 4 + c / 64)%N in
  let i3 := (c mod 64)%N in
  (i0 < 64 ∧ i1 < 64 ∧ i2 < 64 ∧ i3 < 64
   ∧ i0 * 4 + i1 / 16 = a ∧ (i1 mod 16) * 16 + i2 / 4 = b
   ∧ (i2 mod 4) * 64 + i3 = c)%N.
Proof.
  intros Ha Hb Hc. cbv zeta.
  pose proof (N.div_mod' a 4). pose proof (N.mod_upper_bound a 4 ltac:(done)).
  pose proof (N.div_mod' b 16). pose proof (N.mod_upper_bound b 16 ltac:(done)).
  pose proof (N.div_mod' c 64). pose proof (N.mod_upper_bound c 64 ltac:(done)).
  set (qa := (a / 4)%N) in *. set (ra := (a mod 4)%N) in *.
  set (qb := (b / 16)%N) in *. set (rb := (b mod 16)%N) in *.
  set (qc := (c / 64)%N) in *. set (rc := (c mod 64)%N) in *.
  clearbody qa ra qb rb qc rc.
  split_and!; try lia; N_divmod; lia.
Qed.

Lemma b64encode_decode (bs : list N) :
  Forall (fun b => (b < 256)%N) bs → b64decode (b64encode bs) = bs.
Proof.
  assert (Hgen : ∀ n (l : list N), (length l ≤ n)%nat →
            Forall (fun b => (b < 256)%N) l → b64decode (b64encode l) = l).
  { induction n as [|n IH]; intros l Hlen Hl.
    - by destruct l; [|simpl in Hlen; lia].
    - destruct l as [|a [|b [|c r]]]; [done|..].
      + apply Forall_cons in Hl as [Ha _].
        destruct (b64_three a 0 0 Ha) as (H0 & H1 & _ & _ & E0 & _); [done..|].
        simpl in *. rewrite N.add_0_r in *.
        destruct (b64_index_char _ H0) as [-> _].
        destruct (b64_index_char _ H1) as [-> _]. by rewrite E0.
      + apply Forall_cons in Hl as [Ha Hl]. apply Forall_cons in Hl as [Hb _].
        destruct (b64_three a b 0 Ha Hb) as (H0 & H1 & H2 & _ & E0 & E1 & _); [done|].
        simpl in *. rewrite N.add_0_r in *.
        destruct (b64_index_char _ H0) as [-> _].
        destruct (b64_index_char _ H1) as [-> _].
        destruct (b64_index_char _ H2) as [-> Hp2].
        rewrite (proj2 (N.eqb_neq _ _) Hp2). by rewrite E0, E1.
      + apply Forall_cons in Hl as [Ha Hl]. apply Forall_cons in Hl as [Hb Hl].
        apply Forall_cons in Hl as [Hc Hl].
        destruct (b64_three a b c Ha Hb Hc) as (H0 & H1 & H2 & H3 & E0 & E1 & E2).
        simpl in *.
        destruct (b64_index_char _ H0) as [-> _].
        destruct (b64_index_char _ H1) as [-> _].
        destruct (b64_index_char _ H2) as [-> Hp2].
        destruct (b64_index_char _ H3) as [-> Hp3].
        rewrite (proj2 (N.eqb_neq _ _) Hp2), (proj2 (N.eqb_neq _ _) Hp3).
        rewrite E0, E1, E2. do 3 f_equal. apply IH; [lia | done]. }
  intros Hbs. by apply (Hgen (length bs)).
Qed.

Lemma b64encode_length (bs : list N) :
  length (b64encode bs) = (4 * ((length bs + 2) / 3))%nat.
Proof.
  assert (Hgen : ∀ n (l : list N), (length l ≤ n)%nat →
            length (b64encode l) = (4 * ((length l + 2) / 3))%nat).
  { induction n as [|n IH]; intros l Hlen.
    - by destruct l; [|simpl in Hlen; lia].
    - destruct l as [|a [|b [|c r]]]; [done..|].
      cbn [b64encode length]. rewrite IH by (simpl in Hlen; lia).
      replace (S (S (S (length r))) + 2)%nat with (length r + 2 + 1 * 3)%nat by lia.
      rewrite Nat.div_add by done. lia. }
  by apply (Hgen (length bs)).
Qed.

Lemma basic_auth_header_inr (T S : pystr) (hdr : odict pystr pystr) :
  basic_auth_header T S = inr hdr →
  T ≠ [] ∧ S ≠ []
  ∧ ∃ bs, utf8_encode (T ++ [colon] ++ S) = inr bs
          ∧ hdr = [(py "Authorization", py "Basic " ++ b64encode bs)].
Proof.
  unfold basic_auth_header. repeat case_bool_decide; simpl; try done.
  destruct (utf8_encode _) as [|bs]; [done|]. intros [= <-]. eauto.
Qed.

(** When [basic_auth_header] returns, tenant and secret are non-empty and
    the header is ["Basic "] followed by a token of whole groups of four
    characters from which base64 and UTF-8 decoding give back
    [tenant:secret]. *)
Theorem basic_auth_header_roundtrip (T S : pystr) (hdr : odict pystr pystr) :
  Forall (fun c => (c < 1114112)%N) (T ++ S) →
  basic_auth_header T S = inr hdr →
  T ≠ [] ∧ S ≠ []
  ∧ ∃ token,
      hdr = [(py "Authorization", py "Basic " ++ token)]
      ∧ utf8_decode (b64decode token) = T ++ [colon] ++ S
      ∧ (length token `mod` 4 = 0)%nat.
Proof.
  intros Hc (HT & HS & bs & Hbs & ->)%basic_auth_header_inr.
  split_and!; [done..|]. exists (b64encode bs). split_and!; [done| |].
  - rewrite b64encode_decode; [by apply utf8_encode_decode|].
    eapply utf8_encode_bytes; [|done].
    apply Forall_app in Hc as [??]. rewrite !Forall_app. split_and!; [done| |done].
    by repeat constructor.
  - rewrite b64encode_length, Nat.mul_comm. apply Nat.Div0.mod_mul.
Qed.

Lemma basic_auth_header_roundtrip_witness :
  py "tenant" ≠ [] ∧ py "s3cret" ≠ []
  ∧ ∃ token,
      [(py "Authorization", py "Basic dGVuYW50OnMzY3JldA==")]
      = [(py "Authorization", py "Basic " ++ token)]
      ∧ utf8_decode (b64decode token) = py "tenant" ++ [colon] ++ py "s3cret"
      ∧ (length token `mod` 4 = 0)%nat.
Proof.
  apply (basic_auth_header_roundtrip (py "tenant") (py "s3cret")).
  - match goal with |- ?G => apply (bool_decide_unpack G) end.
    vm_compute. exact I.
  - vm_compute. reflexivity.
Defined.

(** [basic_auth_header] raises [RuntimeError] exactly when the tenant or
    the secret is empty; the only other failure is the encoding error of a
    lone surrogate in one of them. *)
Theorem basic_auth_header_raises (T S : pystr) :
  (basic_auth_header T S = inl RuntimeError ↔ T = [] ∨ S = [])
  ∧ (∀ e, basic_auth_header T S = inl e → e ≠ RuntimeError →
          e = UnicodeEncodeError
          ∧ ∃ c, c ∈ T ++ S ∧ (55296 ≤ c ≤ 57343)%N).
Proof.
  unfold basic_auth_header.
  destruct (decide (T = [])) as [->|HT].
  { rewrite bool_decide_eq_true_2 by done. simpl.
    split; [split; auto | by intros e [= <-]]. }
  destruct (decide (S = [])) as [->|HS].
  { rewrite bool_decide_eq_false_2, bool_decide_eq_true_2 by done. simpl.
    split; [split; auto | by intros e [= <-]]. }
  rewrite !bool_decide_eq_false_2 by done. simpl.
  destruct (utf8_encode _) as [e|bs] eqn:He; [|split; [split; [done|tauto] | done]].
  destruct (utf8_encode_raises _ _ He) as (-> & c & Hin & Hc).
  split; [split; [done|tauto]|]. intros e [= <-] _. split; [done|].
  exists c. split; [|done].
  simpl in Hin. rewrite elem_of_app, elem_of_cons in Hin. rewrite elem_of_app.
  destruct Hin as [?|[->|?]]; auto. unfold colon in Hc. lia.
Qed.

Lemma basic_auth_header_raises_witness :
  UnicodeEncodeError = UnicodeEncodeError
  ∧ ∃ c, c ∈ py "tenant" ++ [56832%N] ∧ (55296 ≤ c ≤ 57343)%N.
Proof.
  destruct (basic_auth_header_raises (py "tenant") [56832%N]) as [_ Hother].
  apply Hother; [vm_compute; reflexivity | discriminate].
Defined.

(** ** fetch_checklists_json *)

(** [fetch_checklists_json] returns rows exactly when the credentials give
    a header, the request, sent with the [Accept] and [Authorization]
    headers and the two dates as [startTime] and [endTime], is answered
    with status 200, and the body is a JSON list: the rows are that list. *)
Theorem fetch_checklists_json_returns (T S : pystr)
    (requests_get : odict pystr pystr → odict pystr pystr → raised + http_response)
    (start_date end_date : pystr) (rows : list record) :
  fetch_checklists_json T S requests_get start_date end_date = inr rows
  ↔ ∃ auth resp,
      basic_auth_header T S = inr [(py "Authorization", auth)]
      ∧ requests_get
          [(py "Accept", py "application/json"); (py "Authorization", auth)]
          [(py "startTime", start_date); (py "endTime", end_date)] = inr resp
      ∧ status_code resp = 200
      ∧ response_body resp = Json_list rows.
Proof.
  unfold fetch_checklists_json. split.
  - destruct (basic_auth_header T S) as [|hdr] eqn:Hh; [done|].
    pose proof Hh as (_ & _ & bs & _ & ->)%basic_auth_header_inr.
    cbn [foldl]. change (od_set (py "Authorization") ?v ?d)
      with [(py "Accept", py "application/json"); (py "Authorization", v)].
    destruct (requests_get _ _) as [|resp] eqn:Hr; [done|].
    destruct (Z.eqb_spec (status_code resp) 200); [|done]. simpl.
    destruct (response_body resp) eqn:Hb; try done. intros [= <-]. eauto 10.
  - intros (auth & resp & -> & Hr & Hs & Hb). cbn [foldl].
    change (od_set (py "Authorization") auth ?d)
      with [(py "Accept", py "application/json"); (py "Authorization", auth)].
    rewrite Hr, Hs, Hb. done.
Qed.

(** Every failure of [fetch_checklists_json] is a [RuntimeError], an
    encoding error of the credentials, or what the request raised; when
    the tenant or the secret is empty it raises [RuntimeError] whatever the
    service would answer, so no request is made. *)
Theorem fetch_checklists_json_raises (T S : pystr)
    (requests_get : odict pystr pystr → odict pystr pystr → raised + http_response)
    (start_date end_date : pystr) :
  (T = [] ∨ S = [] →
   ∀ get, fetch_checklists_json T S get start_date end_date = inl RuntimeError)
  ∧ (∀ e, fetch_checklists_json T S requests_get start_date end_date = inl e →
          e = RuntimeError ∨ e = UnicodeEncodeError
          ∨ ∃ headers params, requests_get headers params = inl e).
Proof.
  split.
  - intros Hempty get. unfold fetch_checklists_json, basic_auth_header.
    destruct Hempty as [-> | ->]; [done|]. by rewrite orb_true_r.
  - intros e. unfold fetch_checklists_json.
    destruct (basic_auth_header T S) as [e'|hdr] eqn:Hh.
    + intros [= <-]. unfold basic_auth_header in Hh.
      destruct (_ || _); [left; congruence|].
      destruct (utf8_encode _) as [e''|] eqn:He; [|done].
      apply utf8_encode_raises in He as [-> _]. right; left. congruence.
    + destruct (requests_get _ _) as [e'|resp] eqn:Hr; [intros [= <-]; eauto 10|].
      destruct (negb _); [intros [= <-]; auto|].
      destruct (response_body resp); intros [= <-]; auto.
Qed.

Lemma fetch_checklists_json_raises_witness :
  fetch_checklists_json [] (py "s3cret")
    (fun _ _ => inr (mk_response 200 (Json_list [])))
    (py "2024-01-01") (py "2024-01-03")
  = inl RuntimeError.
Proof.
  destruct (fetch_checklists_json_raises [] (py "s3cret")
              (fun _ _ => inl RequestError) (py "2024-01-01") (py "2024-01-03"))
    as [Hmissing _].
  apply Hmissing. by left.
Defined.

(** ** Dates written YYYY-MM-DD *)

Lemma digit_ascii (k : Z) : 0 ≤ k ≤ 9 → digit (Z.to_N (48 + k)) = Some k.
Proof.
  intros Hk. assert (Hin : k ∈ seqZ 0 10) by (apply elem_of_seqZ; lia).
  revert Hin. generalize k. apply Forall_forall. vm_compute seqZ.
  repeat constructor.
Qed.

Lemma two_digit_ascii (a b : Z) (r : pystr) :
  0 ≤ a ≤ 9 → 0 ≤ b ≤ 9 →
  two digit digit (Z.to_N (48 + a) :: Z.to_N (48 + b) :: r) = [(10 * a + b, r)].
Proof.
  intros Ha Hb. unfold two, one. rewrite (digit_ascii a) by done. simpl.
  by rewrite (digit_ascii b) by done.
Qed.

Lemma re_Y_four_digits (y : Z) (rest : pystr) :
  0 ≤ y ≤ 9999 → re_Y (four_digits y ++ rest) = [(y, rest)].
Proof.
  intros Hy. unfold re_Y, four_digits.
  pose proof (Z.div_mod y 10 ltac:(done)). pose proof (Z.mod_pos_bound y 10 ltac:(done)).
  pose proof (Z.div_mod (y / 10) 10 ltac:(done)).
  pose proof (Z.mod_pos_bound (y / 10) 10 ltac:(done)).
  pose proof (Z.div_mod (y / 10 / 10) 10 ltac:(done)).
  pose proof (Z.mod_pos_bound (y / 10 / 10) 10 ltac:(done)).
  replace (y / 1000) with (y / 10 / 10 / 10) by (rewrite !Z.div_div by done; done).
  replace (y / 100) with (y / 10 / 10) by (rewrite Z.div_div by done; done).
  cbn [app]. rewrite two_digit_ascii by lia. cbn [mbind list_bind app].
  rewrite two_digit_ascii by lia. cbn [mbind list_bind app].
  do 2 f_equal. lia.
Qed.

Lemma month_day_parse (y m dd : Z) :
  1 ≤ m ≤ 12 → 1 ≤ dd ≤ 31 →
  head (r1 ← lit hyphen ([hyphen] ++ two_digits m ++ [hyphen] ++ two_digits dd);
        '(m', r2) ← re_m r1; r3 ← lit hyphen r2; '(d', r4) ← re_d r3;
        [(y, m', d', r4)])
  = Some (y, m, dd, []).
Proof.
  intros Hm Hd.
  assert (Hall : Forall (fun m => Forall (fun dd =>
            head (r1 ← lit hyphen ([hyphen] ++ two_digits m ++ [hyphen] ++ two_digits dd);
                  '(m', r2) ← re_m r1; r3 ← lit hyphen r2; '(d', r4) ← re_d r3;
                  [(y, m', d', r4)])
            = Some (y, m, dd, [])) (seqZ 1 31)) (seqZ 1 12)).
  { vm_compute seqZ. repeat (constructor; [repeat constructor|]). constructor. }
  rewrite Forall_forall in Hall.
  assert (Hin : m ∈ seqZ 1 12) by (apply elem_of_seqZ; lia).
  apply Hall in Hin. rewrite Forall_forall in Hin.
  apply Hin, elem_of_seqZ. lia.
Qed.

Lemma strptime_Ymd_iso (d : date) :
  1 ≤ year d ≤ 9999 → 1 ≤ month d ≤ 12 → 1 ≤ day d ≤ days_in_month (year d) (month d) →
  strptime_Ymd (iso_date d) = Returns d.
Proof.
  destruct d as [y m dd]. simpl. intros Hy Hm Hd.
  pose proof (days_in_month_range y m).
  unfold strptime_Ymd, iso_date. simpl year; simpl month; simpl day.
  rewrite re_Y_four_digits by lia. cbn [mbind list_bind]. rewrite app_nil_r.
  rewrite month_day_parse by lia.
  rewrite (proj2 (Z.leb_le 1 y)), (proj2 (Z.leb_le dd _)) by lia. done.
Qed.

Lemma sort_key_iso (g : group) (d : date) :
  shiftDate g = iso_date d → valid_date d → (sort_key g).1 = d.
Proof.
  intros Hs (Hy & Hm & Hd). unfold sort_key. simpl.
  by rewrite Hs, strptime_Ymd_iso.
Qed.

(** Groups whose shiftDate is written ["YYYY-MM-DD"] are listed latest date
    first: of two such groups, the one with the later date stands before
    the other. *)
Theorem build_shift_index_iso_order (rows : list record) (i j : nat)
    (g g' : group) (d d' : date) :
  build_shift_index rows !! i = Some g → build_shift_index rows !! j = Some g' →
  shiftDate g = iso_date d → shiftDate g' = iso_date d' →
  valid_date d → valid_date d' →
  date_ltb d' d = true → (i < j)%nat.
Proof.
  intros Hi Hj Hs Hs' Hv Hv' Hlt.
  assert (Hk : pair_ltb (sort_key g') (sort_key g) = true).
  { apply pair_ltb_date. by rewrite (sort_key_iso g d), (sort_key_iso g' d'). }
  eapply StronglySorted_lookup_lt;
    [apply index_sorted_desc | exact Hi | exact Hj | |].
  - simpl. congruence.
  - intros ->. rewrite pair_ltb_irrefl in Hk. done.
Qed.

Lemma build_shift_index_iso_order_witness :
  build_shift_index [obj_day1_late; obj_day2_early] !! 0%nat
  = Some (mk_group (py "2024-01-02") (py "A") (py "Line1") (Some (mk_time 0 10)))
  ∧ build_shift_index [obj_day1_late; obj_day2_early] !! 1%nat
    = Some (mk_group (py "2024-01-01") (py "B") (py "Line1") (Some (mk_time 23 50)))
  ∧ (0 < 1)%nat.
Proof.
  split; [vm_compute; reflexivity|]. split; [vm_compute; reflexivity|].
  apply (build_shift_index_iso_order [obj_day1_late; obj_day2_early] 0 1
           (mk_group (py "2024-01-02") (py "A") (py "Line1") (Some (mk_time 0 10)))
           (mk_group (py "2024-01-01") (py "B") (py "Line1") (Some (mk_time 23 50)))
           (mk_date 2024 1 2) (mk_date 2024 1 1));
    try (vm_compute; reflexivity); vm_compute; repeat split; discriminate.
Defined.

Lemma iso_date_no_bar (d : date) : valid_date d → bar ∉ iso_date d.
Proof.
  destruct d as [y m dd]. intros (Hy & Hm & Hd). simpl in *.
  pose proof (days_in_month_range y m).
  assert (Hdig : ∀ k, 0 ≤ k ≤ 9 → bar ≠ Z.to_N (48 + k)) by (unfold bar; lia).
  unfold iso_date, four_digits, two_digits. simpl.
  pose proof (Z.mod_pos_bound y 10 ltac:(done)).
  pose proof (Z.mod_pos_bound (y / 10) 10 ltac:(done)).
  pose proof (Z.mod_pos_bound (y / 100) 10 ltac:(done)).
  pose proof (Z.mod_pos_bound m 10 ltac:(done)).
  pose proof (Z.mod_pos_bound dd 10 ltac:(done)).
  assert (0 ≤ y / 1000 ≤ 9).
  { split; [apply Z.div_pos; lia|].
    assert (y / 1000 < 10) by (apply Z.div_lt_upper_bound; lia). lia. }
  assert (0 ≤ m / 10 ≤ 9).
  { split; [apply Z.div_pos; lia|].
    assert (m / 10 < 10) by (apply Z.div_lt_upper_bound; lia). lia. }
  assert (0 ≤ dd / 10 ≤ 9).
  { split; [apply Z.div_pos; lia|].
    assert (dd / 10 < 10) by (apply Z.div_lt_upper_bound; lia). lia. }
  rewrite !not_elem_of_cons. split_and!; try (apply Hdig; lia); try done.
  apply not_elem_of_nil.
Qed.

(** Every group of the index whose shiftDate is written ["YYYY-MM-DD"],
    away from the two ends of the calendar, and whose shift and station
    hold no ["|"], can be selected: for its key [render_print] fetches the
    days around that date and answers with the report for exactly this
    group's fields, with "no data", or with the error page. *)
Theorem render_print_group (fetch : date → date → raised + list record)
    (rows : list record) (g : group) (d : date) :
  g ∈ build_shift_index rows →
  shiftDate g = iso_date d → valid_date d →
  d ≠ mk_date 1 1 1 → d ≠ mk_date 9999 12 31 →
  (bar ∉ shift g) → (bar ∉ station g) →
  ∃ start_date end_date,
    minus_one_day d = inr start_date ∧ plus_one_day d = inr end_date
    ∧ render_print fetch (selection_key g)
      = inr match fetch start_date end_date with
            | inl _ =>
                Error_page (shiftDate g) (shift g) (station g) start_date end_date
            | inr rows' =>
                if bool_decide (columns (build_report rows' (shiftDate g) (shift g)
                                                      (station g)) = [])
                then No_data_found (shiftDate g) (shift g) (station g)
                                   start_date end_date
                else Print_form (build_report rows' (shiftDate g) (shift g) (station g))
            end.
Proof.
  intros Hg Hs Hv Hmin Hmax Hsh Hst.
  destruct (minus_one_day d) as [e|start_date] eqn:Hstart;
    [by destruct (minus_one_day_overflow _ _ Hv Hstart)|].
  destruct (plus_one_day d) as [e|end_date] eqn:Hend;
    [by destruct (plus_one_day_overflow _ _ Hv Hend)|].
  exists start_date, end_date. split_and!; [done..|].
  destruct (index_elem_of_iff rows g) as [Hex _].
  destruct (Hex Hg) as [(r & _ & _ & Hk) _].
  unfold group_key, key_of_group in Hk. injection Hk as Hd' Hs' Ht'.
  unfold render_print, selection_key.
  rewrite split_three; [|rewrite Hs; by apply iso_date_no_bar|done..].
  rewrite <-Hd', <-Hs', <-Ht', !field_stripped, Hd', Hs', Ht'.
  destruct Hv as (?&?&?). rewrite Hs, strptime_Ymd_iso by done.
  rewrite Hstart, Hend. destruct (fetch start_date end_date); [done|].
  by case_bool_decide.
Qed.

Lemma render_print_group_witness :
  ∃ start_date end_date,
    minus_one_day (mk_date 2024 1 1) = inr start_date
    ∧ plus_one_day (mk_date 2024 1 1) = inr end_date
    ∧ render_print (fun _ _ => inl RequestError)
        (selection_key (mk_group (py "2024-01-01") (py "A") (py "Line1")
                                 (Some (mk_time 9 30))))
      = inr (Error_page (py "2024-01-01") (py "A") (py "Line1") start_date end_date).
Proof.
  apply (render_print_group (fun _ _ => inl RequestError) [obj_08_00; obj_09_30]
           (mk_group (py "2024-01-01") (py "A") (py "Line1") (Some (mk_time 9 30)))
           (mk_date 2024 1 1)).
  - apply list_elem_of_In. vm_compute. auto.
  - vm_compute. reflexivity.
  - vm_compute. repeat split; discriminate.
  - discriminate.
  - discriminate.
  - compute_done.
  - compute_done.
Defined.
